(** * etl_benchmark.py: a shallow embedding of the Pandas / Dask ETL benchmark

    The script provisions a CSV dataset (generating it when the path does not
    exist), runs the same filter and group-by-mean twice (eagerly with pandas,
    partitioned with dask), times both runs and prints a comparison table.

    Modelling choices:
    - numbers read from the CSV are exact rationals ([Q]); a group mean is
      kept in lowest terms ([Qred]) so that equal means are equal terms;
    - the process environment (files, directories, permissions, the wall
      clock, the resident set size, numpy's random streams and stdout) is
      one [World] record threaded through an error/state monad [M];
    - a Python exception is [Err e w]: the exception and the world at the
      point it was raised;
    - logging calls only write to stderr and are left out. *)

From Stdlib Require Import ZArith QArith Qround Qabs String Ascii List Lqa.
From stdpp Require Import base gmap sets list strings.

Local Open Scope Z_scope.

(* ================================================================= *)
(** ** Characters and strings *)

Definition nl : ascii := "010"%char.
Definition comma : ascii := ","%char.
Definition slash : ascii := "/"%char.

(** Number of newline characters: the number of lines of a file whose
    last line is terminated. *)
Fixpoint count_nl (s : string) : nat :=
  match s with
  | EmptyString => 0
  | String c s' => (if decide (c = nl) then 1 else 0) + count_nl s'
  end%nat.

(** Python's [str.split(d)]. *)
Fixpoint split_on (d : ascii) (s : string) : list string :=
  match s with
  | EmptyString => [EmptyString]
  | String c s' =>
      if decide (c = d) then EmptyString :: split_on d s'
      else match split_on d s' with
           | [] => [String c EmptyString]
           | x :: xs => String c x :: xs
           end
  end.

(** Joining with a separator, as Python's [d.join(xs)]. *)
Fixpoint join (d : string) (xs : list string) : string :=
  match xs with
  | [] => ""
  | [x] => x
  | x :: xs' => String.append x (String.append d (join d xs'))
  end%string.

Definition is_digit (c : ascii) : bool :=
  let n := N_of_ascii c in (48 <=? n)%N && (n <=? 57)%N.

Definition is_alpha (c : ascii) : bool :=
  let n := N_of_ascii c in
  ((65 <=? n)%N && (n <=? 90)%N) || ((97 <=? n)%N && (n <=? 122)%N).

Definition to_lower (c : ascii) : ascii :=
  let n := N_of_ascii c in
  if (65 <=? n)%N && (n <=? 90)%N then ascii_of_N (n + 32) else c.

(* ================================================================= *)
(** ** Decimal formatting (what [str] / [to_csv] print) *)

Definition digit_char (d : N) : ascii := ascii_of_N (48 + d mod 10).

Fixpoint digits_go (fuel : nat) (n : N) (acc : string) : string :=
  match fuel with
  | O => acc
  | S f =>
      let acc' := String (digit_char n) acc in
      if (n <? 10)%N then acc' else digits_go f (n / 10)%N acc'
  end.

(** [str(n)] for a natural number. *)
Definition str_N (n : N) : string := digits_go (S (N.size_nat n)) n "".

(** [str(z)] for an integer. *)
Definition str_Z (z : Z) : string :=
  if z <? 0 then String "-" (str_N (Z.to_N (- z))) else str_N (Z.to_N z).

Definition pad_left (width : nat) (s : string) : string :=
  String.append (string_of_list_ascii (repeat "0"%char (width - String.length s))) s.

(** A float value as the decimal it prints as: [mant * 10 ^ exp]. *)
Record Dec := mkDec { d_mant : Z; d_exp : Z }.

Definition Q_of_dec (d : Dec) : Q :=
  if 0 <=? d_exp d then inject_Z (d_mant d * 10 ^ d_exp d)
  else Qmake (d_mant d) (Z.to_pos (10 ^ (- d_exp d))).

(** Positional notation, with ".0" for integral values as Python prints
    floats. *)
Definition str_dec (d : Dec) : string :=
  let sign := if d_mant d <? 0 then "-" else "" in
  let a := Z.abs (d_mant d) in
  if 0 <=? d_exp d then
    String.append sign (String.append (str_Z (a * 10 ^ d_exp d)) ".0")
  else
    let p := 10 ^ (- d_exp d) in
    String.append sign
      (String.append (str_Z (a / p))
        (String "." (pad_left (Z.to_nat (- d_exp d)) (str_Z (a mod p))))).

(** Civil date of a day number counted from 1970-01-01 (the proleptic
    Gregorian calendar numpy's datetime64 uses). *)
Definition civil_from_days (z0 : Z) : Z * Z * Z :=
  let z := z0 + 719468 in
  let era := z / 146097 in
  let doe := z - era * 146097 in
  let yoe := (doe - doe / 1460 + doe / 36524 - doe / 146096) / 365 in
  let y := yoe + era * 400 in
  let doy := doe - (365 * yoe + yoe / 4 - yoe / 100) in
  let mp := (5 * doy + 2) / 153 in
  let d := doy - (153 * mp + 2) / 5 + 1 in
  let m := if mp <? 10 then mp + 3 else mp - 9 in
  (if m <=? 2 then y + 1 else y, m, d).

(** Seconds since 1970-01-01 00:00:00 printed as
    "YYYY-MM-DD HH:MM:SS", the format [to_csv] uses for datetime64. *)
Definition str_timestamp (secs : Z) : string :=
  let '(y, m, d) := civil_from_days (secs / 86400) in
  let r := secs mod 86400 in
  let p2 x := pad_left 2 (str_Z x) in
  join "" [pad_left 4 (str_Z y); "-"; p2 m; "-"; p2 d; " ";
           p2 (r / 3600); ":"; p2 ((r mod 3600) / 60); ":"; p2 (r mod 60)]%string.

(** [pd.Timestamp("2023-01-01")] in seconds since the epoch. *)
Definition ts_2023_01_01 : Z := 1672531200.

(* ================================================================= *)
(** ** Reading numbers and missing values (pandas' C parser) *)

Fixpoint take_digits (l : list ascii) : list N * list ascii :=
  match l with
  | c :: l' =>
      if is_digit c then let '(ds, r) := take_digits l' in ((N_of_ascii c - 48)%N :: ds, r)
      else ([], l)
  | [] => ([], [])
  end.

Definition digits_val (ds : list N) : Z :=
  fold_left (fun acc d => acc * 10 + Z.of_N d) ds 0.

Definition take_sign (l : list ascii) : bool * list ascii :=
  match l with
  | "-"%char :: r => (true, r)
  | "+"%char :: r => (false, r)
  | _ => (false, l)
  end.

(** A decimal number [[+-]digits[.digits][(e|E)[+-]digits]] with at least
    one mantissa digit.  Special float spellings ("inf", "1_000", padded
    numbers) are outside this model and read as non-numeric text. *)
Definition parse_number (s : string) : option Q :=
  let '(neg, l1) := take_sign (list_ascii_of_string s) in
  let '(ip, l2) := take_digits l1 in
  let '(fp, l3) := match l2 with
                   | "."%char :: r => take_digits r
                   | _ => ([], l2)
                   end in
  let ex := match l3 with
            | [] => Some 0
            | c :: r =>
                if bool_decide (c = "e"%char) || bool_decide (c = "E"%char) then
                  let '(eneg, r1) := take_sign r in
                  let '(eds, r2) := take_digits r1 in
                  match eds, r2 with
                  | _ :: _, [] => Some (if eneg then - digits_val eds else digits_val eds)
                  | _, _ => None
                  end
                else None
            end in
  match ip, fp, ex with
  | [], [], _ => None
  | _, _, None => None
  | _, _, Some e =>
      let m := digits_val (ip ++ fp) in
      Some (Q_of_dec (mkDec (if neg then - m else m) (e - Z.of_nat (length fp))))
  end.

(** pandas' default [na_values]: these cells are read as NaN. *)
Definition na_values : list string :=
  [""; "#N/A"; "#N/A N/A"; "#NA"; "-1.#IND"; "-1.#QNAN"; "-NaN"; "-nan";
   "1.#IND"; "1.#QNAN"; "<NA>"; "N/A"; "NA"; "NULL"; "NaN"; "None"; "n/a";
   "nan"; "null"]%string.

Definition is_na (s : string) : bool := existsb (String.eqb s) na_values.

(* ================================================================= *)
(** ** Exceptions and the process environment *)

Inductive exn :=
  | FileNotFoundError (path : string)
  | FileExistsError (path : string)
  | IsADirectoryError (path : string)
  | PermissionError (path : string)
  | NoSpaceError                        (** OSError ENOSPC *)
  | EmptyDataError
  | ParserError
  | KeyError (key : string)
  | TypeError
  | NotImplementedError
  | ZeroDivisionError
  | MemoryError
  | ValueError (msg : string).

(** numpy's global random state, as the successive outputs of the three
    draws [generate_dataset] makes: [randint], [choice] and [randn]. *)
Record Rng := mkRng {
  rng_int : nat -> Z;       (** raw bounded-integer draws *)
  rng_choice : nat -> Z;    (** raw label-index draws *)
  rng_normal : nat -> Dec   (** standard normal draws, as printed decimals *)
}.

(** A pandas Series indexed by category. *)
Abbreviation Series := (gmap string Q).

(** dask's result: a Series whose index may hold NaN ([None]). *)
Abbreviation DSeries := (gmap (option string) Q).

Record TableRow := mkTableRow {
  framework : string;
  exec_time : Q;
  memory_mb : Q
}.

(** What [print] writes to stdout. *)
Inductive Out :=
  | OText (s : string)
  | OTable (rows : list TableRow)
  | OSeries (s : DSeries).

Record World := mkWorld {
  w_files : gmap string string;   (** regular files and their contents *)
  w_dirs : gset string;           (** existing directories *)
  w_no_read : gset string;        (** files whose read is denied *)
  w_no_write : gset string;       (** paths whose creation/write is denied *)
  w_disk_full : bool;             (** writes fail with ENOSPC *)
  w_clock : nat -> Q;             (** successive readings of [time.time()] *)
  w_tick : nat;                   (** readings taken so far *)
  w_rss : N;                      (** resident set size, in bytes *)
  w_rng : Rng;
  w_stdout : list Out             (** printed so far, oldest first *)
}.

Definition set_files (fs : gmap string string) (w : World) : World :=
  mkWorld fs (w_dirs w) (w_no_read w) (w_no_write w) (w_disk_full w)
    (w_clock w) (w_tick w) (w_rss w) (w_rng w) (w_stdout w).

Definition set_dirs (ds : gset string) (w : World) : World :=
  mkWorld (w_files w) ds (w_no_read w) (w_no_write w) (w_disk_full w)
    (w_clock w) (w_tick w) (w_rss w) (w_rng w) (w_stdout w).

Definition set_tick (t : nat) (w : World) : World :=
  mkWorld (w_files w) (w_dirs w) (w_no_read w) (w_no_write w) (w_disk_full w)
    (w_clock w) t (w_rss w) (w_rng w) (w_stdout w).

Definition set_stdout (o : list Out) (w : World) : World :=
  mkWorld (w_files w) (w_dirs w) (w_no_read w) (w_no_write w) (w_disk_full w)
    (w_clock w) (w_tick w) (w_rss w) (w_rng w) o.

(* ================================================================= *)
(** ** The error/state monad *)

Inductive res (A : Type) :=
  | Ok (a : A) (w : World)
  | Err (e : exn) (w : World).
Arguments Ok {A} a w.
Arguments Err {A} e w.

Definition M (A : Type) : Type := World -> res A.

Definition ret {A} (a : A) : M A := fun w => Ok a w.
Definition raise {A} (e : exn) : M A := fun w => Err e w.
Definition get : M World := fun w => Ok w w.
Definition modify (f : World -> World) : M unit := fun w => Ok tt (f w).

Definition bind {A B} (m : M A) (k : A -> M B) : M B :=
  fun w => match m w with
           | Ok a w' => k a w'
           | Err e w' => Err e w'
           end.

Notation "x <- m ;; k" := (bind m (fun x => k))
  (at level 100, m at next level, right associativity).
Notation "m ;;; k" := (bind m (fun _ => k))
  (at level 100, right associativity).

(** A pure computation that may raise. *)
Definition lift {A} (r : exn + A) : M A :=
  match r with inl e => raise e | inr a => ret a end.

(* ================================================================= *)
(** ** Filesystem primitives *)

(** [os.path.exists(p)]; [os.stat("")] fails, so "" never exists. *)
Definition os_path_exists (p : string) : M bool :=
  fun w => Ok (negb (String.eqb p "") &&
               (bool_decide (is_Some (w_files w !! p)) || bool_decide (p ∈ w_dirs w))) w.

(** Index just past the last '/' ([p.rfind('/') + 1]). *)
Fixpoint last_sep_end (l : list ascii) (idx acc : nat) : nat :=
  match l with
  | [] => acc
  | c :: l' => last_sep_end l' (S idx) (if decide (c = slash) then S idx else acc)
  end.

Definition is_slash (c : ascii) : bool := bool_decide (c = slash).

Fixpoint drop_while {A} (f : A -> bool) (l : list A) : list A :=
  match l with
  | x :: l' => if f x then drop_while f l' else l
  | [] => []
  end.

(** [posixpath.dirname]:
<<
    i = p.rfind(sep) + 1
    head = p[:i]
    if head and head != sep*len(head):
        head = head.rstrip(sep)
    return head
>> *)
Definition dirname (p : string) : string :=
  let l := list_ascii_of_string p in
  let head := firstn (last_sep_end l 0 0) l in
  match head with
  | [] => ""
  | _ => if forallb is_slash head then string_of_list_ascii head
         else string_of_list_ascii (rev (drop_while is_slash (rev head)))
  end.

(** [os.makedirs(d, exist_ok=True)].  [mkdir("")] fails with ENOENT and
    [isdir("")] is false, so the empty name raises.  Intermediate
    directories are created too; only [d] itself is recorded, nothing later
    in the program looks at the others. *)
Definition makedirs (d : string) : M unit :=
  fun w =>
    if String.eqb d "" then Err (FileNotFoundError d) w
    else if bool_decide (d ∈ w_dirs w) then Ok tt w
    else if bool_decide (is_Some (w_files w !! d)) then Err (FileExistsError d) w
    else if bool_decide (d ∈ w_no_write w) then Err (PermissionError d) w
    else Ok tt (set_dirs ({[ d ]} ∪ w_dirs w) w).

(** [open(p, "w")] followed by a write of [text]: the open truncates (or
    creates) the file, a full disk makes the write fail afterwards. *)
Definition write_file (p text : string) : M unit :=
  fun w =>
    let d := dirname p in
    if bool_decide (p ∈ w_dirs w) then Err (IsADirectoryError p) w
    else if negb (String.eqb d "") && negb (bool_decide (d ∈ w_dirs w))
    then Err (FileNotFoundError p) w
    else if bool_decide (p ∈ w_no_write w) then Err (PermissionError p) w
    else if w_disk_full w then Err NoSpaceError (set_files (<[p := ""]> (w_files w)) w)
    else Ok tt (set_files (<[p := text]> (w_files w)) w).

(** [open(p).read()]. *)
Definition read_file (p : string) : M string :=
  fun w =>
    if bool_decide (p ∈ w_dirs w) then Err (IsADirectoryError p) w
    else match w_files w !! p with
         | None => Err (FileNotFoundError p) w
         | Some text =>
             if bool_decide (p ∈ w_no_read w) then Err (PermissionError p) w
             else Ok text w
         end.

(* ================================================================= *)
(** ** DATA GENERATION *)

Record GenRow := mkGenRow {
  g_user_id : Z;
  g_category : string;
  g_value : Dec;
  g_timestamp : Z      (** seconds since the epoch *)
}.

(** [np.random.randint(lo, hi)]: a draw in [[lo, hi)]. *)
Definition randint (lo hi raw : Z) : Z := lo + raw mod (hi - lo).

(** [np.random.choice(labels)]. *)
Definition choice (labels : list string) (raw : Z) : string :=
  nth (Z.to_nat (raw mod Z.of_nat (length labels))) labels ""%string.

Definition labels : list string := ["A"; "B"; "C"; "D"]%string.

(** [x * 100] on a draw. *)
Definition times_100 (d : Dec) : Dec := mkDec (d_mant d) (d_exp d + 2).

(** The DataFrame built in [generate_dataset], row [i] being
    [(randint[i], choice[i], randn[i] * 100, 2023-01-01 + i s)]. *)
Definition gen_frame (g : Rng) (rows : nat) : list GenRow :=
  map (fun i => mkGenRow (randint 1 100000 (rng_int g i))
                         (choice labels (rng_choice g i))
                         (times_100 (rng_normal g i))
                         (ts_2023_01_01 + Z.of_nat i))
      (seq 0 rows).

Definition csv_header : string := "user_id,category,value,timestamp".

Definition csv_line (r : GenRow) : string :=
  join "," [str_Z (g_user_id r); g_category r; str_dec (g_value r);
            str_timestamp (g_timestamp r)]%string.

Definition line (s : string) : string := String.append s (String nl "").

(** [df.to_csv(path, index=False)]: the header, then one line per row. *)
Definition to_csv (frame : list GenRow) : string :=
  String.concat "" (map line (csv_header :: map csv_line frame)).

(** [generate_dataset(path, rows)]. *)
Definition generate_dataset (path : string) (rows : Z) : M unit :=
  makedirs (dirname path) ;;;
  if rows <? 0 then raise (ValueError "negative dimensions are not allowed")
  else w <- get ;;
       write_file path (to_csv (gen_frame (w_rng w) (Z.to_nat rows))).

(* ================================================================= *)
(** ** [pd.read_csv]: lines, header, records *)

(** The non-blank lines of a file ([skip_blank_lines=True]). *)
Definition read_lines (text : string) : list string :=
  List.filter (fun l => negb (String.eqb l "")) (split_on nl text).

(** Records of the data lines; a record with more fields than the header
    is a tokenizing error, a shorter one is padded with NaN. *)
Definition parse_records (ncols : nat) (data : list string) : exn + list (list string) :=
  let recs := map (split_on comma) data in
  if forallb (fun r => length r <=? ncols)%nat recs then inr recs else inl ParserError.

(** The column names and the records of a CSV text.  This is the part of
    pandas' reader the generated files use: fields separated by commas,
    lines by LF.  Quoted fields, CR line ends, comment and escape
    characters, and the numeric reading of the category column are outside
    the model; the theorems on both pipelines assume category cells that do
    not read as numbers. *)
Definition read_csv_text (text : string) : exn + (list string * list (list string)) :=
  match read_lines text with
  | [] => inl EmptyDataError
  | h :: data =>
      let cols := split_on comma h in
      match parse_records (length cols) data with
      | inl e => inl e
      | inr recs => inr (cols, recs)
      end
  end.

(** The position of the first column called [name] ([df[name]]). *)
Fixpoint col_index (name : string) (cols : list string) : option nat :=
  match cols with
  | [] => None
  | c :: cs => if String.eqb c name then Some 0%nat else option_map S (col_index name cs)
  end.

(** The text of a cell; a missing trailing cell reads as "" (NaN). *)
Definition cell (r : list string) (i : nat) : string := nth i r ""%string.

(** A [value] cell: NaN, a number, or text that makes the column an object
    column, on which [> 0] raises [TypeError]. *)
Definition value_cell (s : string) : exn + option Q :=
  if is_na s then inr None
  else match parse_number s with
       | Some q => inr (Some q)
       | None => inl TypeError
       end.

(** The error [df["value"] > 0] raises, if any. *)
Fixpoint check_values (vi : nat) (recs : list (list string)) : option exn :=
  match recs with
  | [] => None
  | r :: rs => match value_cell (cell r vi) with
               | inl e => Some e
               | inr _ => check_values vi rs
               end
  end.

(** What a record contributes to [groupby("category")["value"]] after the
    filter [value > 0]: nothing when the value is not positive (NaN
    included) or the category is NaN ([groupby] drops NaN keys). *)
Definition keep_row (vi ci : nat) (r : list string) : list (string * Q) :=
  match value_cell (cell r vi) with
  | inr (Some q) =>
      if Qle_bool q 0 then []
      else if is_na (cell r ci) then [] else [(cell r ci, q)]
  | _ => []
  end.

(** [df = df[df["value"] > 0]] followed by [df.groupby("category")["value"]]:
    the (category, value) pairs of the groups. *)
Definition filtered_kv (cols : list string) (recs : list (list string))
  : exn + list (string * Q) :=
  match col_index "value" cols with
  | None => inl (KeyError "value")
  | Some vi =>
      match check_values vi recs with
      | Some e => inl e
      | None =>
          match col_index "category" cols with
          | None => inl (KeyError "category")
          | Some ci => inr (flat_map (keep_row vi ci) recs)
          end
      end
  end.

(* ================================================================= *)
(** ** Group-by sum, count and mean *)

Definition group_sum (kv : list (string * Q)) : gmap string Q :=
  foldr (fun kq m => <[kq.1 := (kq.2 + default 0 (m !! kq.1))%Q]> m) ∅ kv.

Definition group_count (kv : list (string * Q)) : gmap string Z :=
  foldr (fun kq m => <[kq.1 := 1 + default 0 (m !! kq.1)]> m) ∅ kv.

(** A group mean, in lowest terms. *)
Definition mean_of (s : Q) (c : Z) : Q := Qred (s / inject_Z c).

(** [sums / counts], aligned on the index. *)
Definition divide (sums : gmap string Q) (counts : gmap string Z) : Series :=
  merge (fun os oc => match os, oc with
                      | Some s, Some c => Some (mean_of s c)
                      | _, _ => None
                      end) sums counts.

Definition groupby_mean (kv : list (string * Q)) : Series :=
  divide (group_sum kv) (group_count kv).

(* ================================================================= *)
(** ** PIPELINES *)

(** [pandas_pipeline(path)]. *)
Definition pandas_pipeline (path : string) : M Series :=
  text <- read_file path ;;
  frame <- lift (read_csv_text text) ;;
  kv <- lift (filtered_kv frame.1 frame.2) ;;
  ret (groupby_mean kv).

(** dask's [parse_bytes] on a blocksize string ("128MB"):
<<
    s = s.replace(" ", "")
    if not any(char.isdigit() for char in s):
        s = "1" + s
    for i in range(len(s) - 1, -1, -1):
        if not s[i].isalpha():
            break
    index = i + 1
    prefix = s[:index]
    suffix = s[index:]
    n = float(prefix)                          # else ValueError
    multiplier = byte_sizes[suffix.lower()]    # else ValueError
    result = n * multiplier
    return int(result)
>>
    [float(prefix)] is read with [parse_number] (a prefix with "_" between
    digits is outside the model), and the product is exact: Python rounds
    it to a double, which can change the result above 2^53. *)
Definition byte_sizes : list (string * N) :=
  [("", 1); ("b", 1); ("kb", 10^3); ("mb", 10^6); ("gb", 10^9);
   ("tb", 10^12); ("pb", 10^15); ("kib", 2^10); ("mib", 2^20);
   ("gib", 2^30); ("tib", 2^40); ("pib", 2^50); ("k", 10^3); ("m", 10^6);
   ("g", 10^9); ("t", 10^12); ("p", 10^15); ("ki", 2^10); ("mi", 2^20);
   ("gi", 2^30); ("ti", 2^40); ("pi", 2^50)]%string%N.

Fixpoint take_while {A} (f : A -> bool) (l : list A) : list A :=
  match l with
  | x :: l' => if f x then x :: take_while f l' else []
  | [] => []
  end.

(** Python's [int(x)]: truncation toward 0. *)
Definition trunc (q : Q) : Z := if Qle_bool 0 q then Qfloor q else - Qfloor (- q).

Definition parse_bytes (s : string) : option Z :=
  let l0 := List.filter (fun c => negb (bool_decide (c = " "%char))) (list_ascii_of_string s) in
  let l := if existsb is_digit l0 then l0 else "1"%char :: l0 in
  let suffix := rev (take_while is_alpha (rev l)) in
  let prefix := rev (drop_while is_alpha (rev l)) in
  let unit := string_of_list_ascii (map to_lower suffix) in
  match parse_number (string_of_list_ascii prefix) with
  | None => None
  | Some n =>
      match List.find (fun kv => String.eqb kv.1 unit) byte_sizes with
      | Some (_, mult) => Some (trunc (n * inject_Z (Z.of_N mult)))
      | None => None
      end
  end.

Fixpoint map_sum {A B} (f : A -> exn + B) (l : list A) : exn + list B :=
  match l with
  | [] => inr []
  | x :: l' => match f x with
               | inl e => inl e
               | inr b => match map_sum f l' with
                          | inl e => inl e
                          | inr bs => inr (b :: bs)
                          end
               end
  end.

(* ----------------------------------------------------------------- *)
(** *** [read_bytes]: the blocks and the sample *)

(** The first position at or after [o] that holds a newline; [pos] is the
    position of the head of [l]. *)
Fixpoint find_nl (l : list ascii) (pos o : Z) : option Z :=
  match l with
  | [] => None
  | c :: l' => if (o <=? pos) && bool_decide (c = nl) then Some pos
               else find_nl l' (pos + 1) o
  end.

(** The bytes from position [a] up to position [b] ([f.seek(a);
    f.read(b - a)]). *)
Definition byte_range (text : string) (a b : Z) : string :=
  string_of_list_ascii (firstn (Z.to_nat (b - a)) (skipn (Z.to_nat a) (list_ascii_of_string text))).

(** [f.seek(o); seek_delimiter(f, b"\n", 2**16); f.tell()]: at the start
    of the file nothing moves; elsewhere the position just past the next
    newline, or the end of the file. *)
Definition seek_delimiter (text : string) (o : Z) : Z :=
  if o =? 0 then 0
  else match find_nl (list_ascii_of_string text) 0 o with
       | Some j => j + 1
       | None => Z.of_nat (String.length text)
       end.

(** [read_block(f, offset, length, delimiter=b"\n")]: the block starts
    at the delimiter after [offset] and ends at the delimiter after
    [offset + length]. *)
Definition read_block (text : string) (offset length : Z) : string :=
  byte_range text (seek_delimiter text offset) (seek_delimiter text (offset + length)).

(** The [while] loop of [read_bytes]:
<<
    place = 0
    off = [0]
    while size - place > (blocksize1 * 2) - 1:
        place += blocksize1
        off.append(int(place))
>>
    [place] and [blocksize1] are Python floats, exact rationals here.  The
    loop runs at most [size] times: [place] grows by [blocksize1 >= 1] and
    stays below [size]. *)
Fixpoint offsets_loop (fuel : nat) (size : Z) (blocksize1 place : Q) : list Z :=
  match fuel with
  | O => []
  | S fuel' =>
      if negb (Qle_bool (inject_Z size - place) (blocksize1 * 2 - 1)) then
        let place' := (place + blocksize1)%Q in
        Qfloor place' :: offsets_loop fuel' size blocksize1 place'
      else []
  end.

(** The block offsets of [read_bytes] for a file of [size > 0] bytes and a
    [blocksize > 0]:
<<
    if size % blocksize and size > blocksize:
        blocksize1 = size / (size // blocksize)
    else:
        blocksize1 = blocksize
>> *)
Definition block_offsets (size blocksize : Z) : list Z :=
  let blocksize1 :=
    if negb (size mod blocksize =? 0) && (blocksize <? size)
    then (inject_Z size / inject_Z (size / blocksize))%Q
    else inject_Z blocksize in
  0 :: offsets_loop (Z.to_nat size) size blocksize1 0.

(** The blocks: from each offset to the next, the last one to the end
    ([length = off[i+1] - off[i]], the last [size - off[-1]]). *)
Fixpoint blocks_from (text : string) (size : Z) (off : list Z) : list string :=
  match off with
  | [] => []
  | [o] => [read_block text o (size - o)]
  | o :: ((o' :: _) as rest) => read_block text o (o' - o) :: blocks_from text size rest
  end.

(** The blocks of [read_bytes(path, delimiter=b"\n", blocksize=blocksize)];
    an empty file has none. *)
Definition read_bytes_blocks (text : string) (blocksize : Z) : list string :=
  let size := Z.of_nat (String.length text) in
  if (size =? 0)%Z then [] else blocks_from text size (block_offsets size blocksize).

(** [dd.read_csv]'s defaults [sample=256000] and [sample_rows=10]. *)
Definition sample_size : Z := 256000.
Definition sample_rows : nat := 10.

(** The sample of [read_bytes]: [f.read(sample)], then further reads up to
    and including the next newline (or to the end of the file). *)
Definition take_sample (text : string) : string :=
  match find_nl (list_ascii_of_string text) 0 sample_size with
  | Some j => byte_range text 0 (j + 1)
  | None => text
  end.

(** [parts = b_sample.split(b"\n", 2)] and
    [nparts = 0 if not parts else len(parts) - int(not parts[-1])]: the
    third part holds the rest of the sample, it is empty only when the
    sample has exactly two newlines, the second at its end. *)
Definition sample_nparts (sample : string) : nat :=
  let ps := split_on nl sample in
  if (3 <? length ps)%nat then 3%nat
  else (length ps - (if String.eqb (List.last ps ""%string) "" then 1 else 0))%nat.

(** The file steps of [read_bytes]: [fs.info(path)["size"]] (a missing path
    raises), the block offsets ([size % blocksize] raises ZeroDivisionError
    for a blocksize of 0; for a negative one the offset loop never ends and
    the list of offsets grows until memory runs out), then [open] for the
    sample.  A directory's [st_size] counts as positive, as on the usual
    file systems. *)
Definition offsets_error (size blocksize : Z) : option exn :=
  if (size =? 0)%Z then None
  else if (blocksize =? 0)%Z then Some ZeroDivisionError
  else if (blocksize <? 0)%Z then Some MemoryError
  else None.

Definition dask_open (p : string) (blocksize : Z) : M string :=
  fun w =>
    if bool_decide (p ∈ w_dirs w) then
      match offsets_error 1 blocksize with
      | Some e => Err e w
      | None => Err (IsADirectoryError p) w
      end
    else match w_files w !! p with
         | None => Err (FileNotFoundError p) w
         | Some text =>
             match offsets_error (Z.of_nat (String.length text)) blocksize with
             | Some e => Err e w
             | None =>
                 if bool_decide (p ∈ w_no_read w) then Err (PermissionError p) w
                 else Ok text w
             end
         end.

(* ----------------------------------------------------------------- *)
(** *** The meta: columns and dtypes from the sample *)

(** [pd.read_csv(BytesIO(b_sample), nrows=sample_rows)]: the header and
    the first records. *)
Definition read_head (sample : string) : exn + (list string * list (list string)) :=
  match read_lines sample with
  | [] => inl EmptyDataError
  | h :: data =>
      let cols := split_on comma h in
      match parse_records (length cols) (firstn sample_rows data) with
      | inl e => inl e
      | inr recs => inr (cols, recs)
      end
  end.

(** The dtype of a column; dask turns [object] columns into
    [string[pyarrow]]. *)
Inductive dtype := DInt64 | DFloat64 | DString.

(** An integer as pandas' parser reads one: [[+-]digits]. *)
Definition is_int_text (s : string) : bool :=
  let '(_, l1) := take_sign (list_ascii_of_string s) in
  match take_digits l1 with
  | (_ :: _, []) => true
  | _ => false
  end.

Definition is_float_text (s : string) : bool :=
  is_na s || bool_decide (is_Some (parse_number s)).

(** The dtype pandas infers from the cells of a column: [int64] when every
    cell is an integer, [float64] when every cell is a number or NaN,
    [object] otherwise, and [object] for a column without cells.  Integers
    beyond the int64 range are outside the model. *)
Definition infer_dtype (cells : list string) : dtype :=
  match cells with
  | [] => DString
  | _ => if forallb is_int_text cells then DInt64
         else if forallb is_float_text cells then DFloat64 else DString
  end.

(** [coerce_dtypes(df, dtypes)] on one column of a partition: [actual]
    is the dtype the partition's cells give, [desired] the meta's.
<<
    if is_float_dtype(actual) and is_integer_dtype(desired):
        bad_dtypes.append((c, actual, desired))
    elif is_object_dtype(actual):
        try: df[c] = df[c].astype(dtypes[c])
        except Exception as e: bad_dtypes.append(...)
    else:
        df[c] = df[c].astype(dtypes[c])
>>
    [astype] of an [object] column of text to a numeric dtype fails; only
    a column without cells casts. *)
Definition coerces (desired : dtype) (cells : list string) : bool :=
  match desired, infer_dtype cells with
  | DInt64, DFloat64 => false
  | DInt64, DString | DFloat64, DString => bool_decide (cells = [])
  | _, _ => true
  end.

(** The sign, the digits and the exponent of a number cell:
    [(-1)^neg * digits * 10^e]. *)
Definition float_parts (s : string) : bool * list N * Z :=
  let '(neg, l1) := take_sign (list_ascii_of_string s) in
  let '(ip, l2) := take_digits l1 in
  let '(fp, l3) := match l2 with
                   | "."%char :: r => take_digits r
                   | _ => ([], l2)
                   end in
  let e := match l3 with
           | _ :: r => let '(eneg, r1) := take_sign r in
                       let '(eds, _) := take_digits r1 in
                       if eneg then - digits_val eds else digits_val eds
           | [] => 0
           end in
  (neg, ip ++ fp, e - Z.of_nat (length fp)).

Fixpoint strip_zeros (fuel : nat) (m e : Z) : Z * Z :=
  match fuel with
  | O => (m, e)
  | S f => if (m mod 10 =? 0) && negb (m =? 0) then strip_zeros f (m / 10) (e + 1) else (m, e)
  end.

(** Python's [str] of the float [(-1)^neg * m * 10^e] (its shortest
    form): positional when the decimal exponent [x] of the leading digit
    is in [-4, 15], as in "0.0001", "1.5" and "100.0"; "1e-05" and
    "1.5e+16" otherwise. *)
Definition py_float_str (neg : bool) (m0 e0 : Z) : string :=
  let '(m, e) := strip_zeros (Z.to_nat (Z.log2 (Z.abs m0) + 1)) m0 e0 in
  let sign := if neg then "-" else "" in
  if m =? 0 then String.append sign "0.0"
  else
    let ds := list_ascii_of_string (str_Z m) in
    let n := Z.of_nat (length ds) in
    let x := e + n - 1 in
    let body :=
      if (-4 <=? x) && (x <=? 15) then
        if 0 <=? x then
          if n <=? x + 1
          then String.append (str_Z m)
                 (String.append (string_of_list_ascii (repeat "0"%char (Z.to_nat (x + 1 - n)))) ".0")
          else string_of_list_ascii (firstn (Z.to_nat (x + 1)) ds ++ "."%char :: skipn (Z.to_nat (x + 1)) ds)
        else String.append "0." (string_of_list_ascii (repeat "0"%char (Z.to_nat (- x - 1)) ++ ds))
      else
        string_of_list_ascii
          (firstn 1 ds ++ (if n =? 1 then [] else "."%char :: skipn 1 ds) ++
           "e"%char :: (if x <? 0 then "-"%char else "+"%char) ::
           list_ascii_of_string (pad_left 2 (str_Z (Z.abs x)))) in
    String.append sign body.

(** The group key of a category cell.  NaN is the key [None].  When the
    meta's category column is a string column but the partition's cells
    are all numbers, the partition reads them as numbers and the cast to
    the string dtype writes them back with Python's [str]: "007" becomes
    "7" and "1.50" becomes "1.5".  Otherwise the key is the cell's text
    (numeric labels are kept as their text, as in the eager pipeline). *)
Definition dask_key (ct pt : dtype) (s : string) : option string :=
  if is_na s then None
  else match ct, pt with
       | DString, DInt64 =>
           Some (str_Z (match parse_number s with Some q => Qfloor q | None => 0 end))
       | DString, DFloat64 =>
           let '(neg, ds, e) := float_parts s in Some (py_float_str neg (digits_val ds) e)
       | _, _ => Some s
       end.

(* ----------------------------------------------------------------- *)
(** *** Partitions and the group-by *)

(** What a record contributes to [groupby("category")["value"]] after the
    filter [value > 0].  The key is [None] for a NaN category: dask keeps
    that group. *)
Definition dask_pair (ct pt : dtype) (vi ci : nat) (r : list string) : list (option string * Q) :=
  match value_cell (cell r vi) with
  | inr (Some q) =>
      if Qle_bool q 0 then [] else [(dask_key ct pt (cell r ci), q)]
  | _ => []
  end.

(** Python's whitespace, for [bytes.rstrip()]. *)
Definition is_space (c : ascii) : bool :=
  bool_decide (c = " "%char) || bool_decide (c = "009"%char) || bool_decide (c = nl) ||
  bool_decide (c = "011"%char) || bool_decide (c = "012"%char) || bool_decide (c = "013"%char).

Definition rstrip (s : string) : string :=
  string_of_list_ascii (rev (drop_while is_space (rev (list_ascii_of_string s)))).

(** One partition ([CSVFunctionWrapper] and [pandas_read_text]): the block,
    with the header line written in front unless it is the first block or
    already starts with the header ([b.startswith(header.rstrip())]); read
    with [usecols] set to the columns the graph uses, "value" and
    "category" (a record with more fields than the header is then no
    error); cast to the meta's dtypes; filtered and paired. *)
Definition partition_pairs (header : string) (vt ct : dtype) (first : bool) (block : string)
  : exn + list (option string * Q) :=
  let b := if first || String.prefix (rstrip header) block then block
           else String.append header block in
  match read_lines b with
  | [] => inl EmptyDataError
  | h :: data =>
      let cols := split_on comma h in
      match col_index "value" cols, col_index "category" cols with
      | Some vi, Some ci =>
          let recs := map (split_on comma) data in
          let vcells := map (fun r => cell r vi) recs in
          let ccells := map (fun r => cell r ci) recs in
          if coerces vt vcells && coerces ct ccells
          then inr (flat_map (dask_pair ct (infer_dtype ccells) vi ci) recs)
          else inl (ValueError "Mismatched dtypes found in pd.read_csv")
      | _, _ => inl (ValueError "Usecols do not match columns")
      end
  end.

(** The first block is read as it is, the others with the header. *)
Definition mark_first (blocks : list string) : list (bool * string) :=
  match blocks with
  | [] => []
  | b :: bs => (true, b) :: map (pair false) bs
  end.

Definition dgroup_sum (kv : list (option string * Q)) : gmap (option string) Q :=
  foldr (fun kq m => <[kq.1 := (kq.2 + default 0 (m !! kq.1))%Q]> m) ∅ kv.

Definition dgroup_count (kv : list (option string * Q)) : gmap (option string) Z :=
  foldr (fun kq m => <[kq.1 := 1 + default 0 (m !! kq.1)]> m) ∅ kv.

Definition ddivide (sums : gmap (option string) Q) (counts : gmap (option string) Z) : DSeries :=
  merge (fun os oc => match os, oc with
                      | Some s, Some c => Some (mean_of s c)
                      | _, _ => None
                      end) sums counts.

(** [dd.read_csv] once the file is open, the graph of [dask_pipeline] and
    its [compute()]:
    - a sample that fills [sample] bytes must hold a row of data;
    - the header and the first [sample_rows] records of the sample give the
      columns and their dtypes (the meta); a record there with more fields
      than the header is a ParserError;
    - [df["value"]], [df["value"] > 0] and [groupby("category")] are
      checked on the meta while the graph is built: a missing column raises
      KeyError, [> 0] on a string column NotImplementedError;
    - [compute()] reads every block as a partition, sums and counts each
      group per partition and adds these up across partitions.  When
      several partitions fail, the scheduler raises the first failure it
      sees; the model raises the first one in block order. *)
Definition dask_on_text (blocksize : Z) (text : string) : exn + DSeries :=
  let sample := take_sample text in
  if (sample_nparts sample <? 2)%nat && (sample_size <=? Z.of_nat (String.length sample))
  then inl (ValueError "Sample is not large enough to include at least one row of data")
  else
    let header := String.append (hd ""%string (split_on nl sample)) (String nl "") in
    match read_head sample with
    | inl e => inl e
    | inr (cols, head) =>
        match col_index "value" cols with
        | None => inl (KeyError "value")
        | Some vi =>
            let vt := infer_dtype (map (fun r => cell r vi) head) in
            match vt with
            | DString => inl NotImplementedError
            | _ =>
                match col_index "category" cols with
                | None => inl (KeyError "category")
                | Some ci =>
                    let ct := infer_dtype (map (fun r => cell r ci) head) in
                    match map_sum (fun fb => partition_pairs header vt ct fb.1 fb.2)
                                  (mark_first (read_bytes_blocks text blocksize)) with
                    | inl e => inl e
                    | inr parts =>
                        inr (ddivide
                               (foldr (union_with (fun x y => Some (x + y)%Q)) ∅
                                      (map dgroup_sum parts))
                               (foldr (union_with (fun x y => Some (x + y))) ∅
                                      (map dgroup_count parts)))
                    end
                end
            end
        end
    end.

(** [dask_pipeline(path, blocksize)]: [dd.read_csv] parses the blocksize
    first, then opens the file. *)
Definition dask_pipeline (path : string) (blocksize : string) : M DSeries :=
  n <- lift (match parse_bytes blocksize with
             | Some n => inr n
             | None => inl (ValueError "Could not interpret blocksize")
             end) ;;
  text <- dask_open path n ;;
  lift (dask_on_text n text).

(* ================================================================= *)
(** ** UTILITIES and MAIN *)

(** Python's [round(x, 2)]: to the nearest hundredth, ties to even. *)
Definition round2 (q : Q) : Q :=
  let x := (q * 100)%Q in
  let f := Qfloor x in
  let d := (x - inject_Z f)%Q in
  let r := if Qeq_bool d (1 # 2) then (if Z.even f then f else f + 1)
           else if Qle_bool d (1 # 2) then f else f + 1 in
  Qred (Qmake r 100).

(** [time.time()]: the next reading of the wall clock. *)
Definition time_time : M Q :=
  fun w => Ok (w_clock w (w_tick w)) (set_tick (S (w_tick w)) w).

(** [timed(func)]. *)
Definition timed {A} (func : M A) : M (A * Q) :=
  start <- time_time ;;
  result <- func ;;
  end_ <- time_time ;;
  ret (result, round2 (end_ - start)%Q).

(** [memory_usage_mb()]: [rss / (1024 ** 2)]. *)
Definition memory_usage_mb : M Q :=
  fun w => Ok (inject_Z (Z.of_N (w_rss w)) / inject_Z (1024 ^ 2))%Q w.

Definition print (o : Out) : M unit :=
  modify (fun w => set_stdout (w_stdout w ++ [o]) w).

(** The parsed command line. *)
Record Args := mkArgs {
  data_path : string;
  rows : Z;
  blocksize : string
}.

Definition default_args : Args :=
  mkArgs "data/large_dataset.csv" 1000000 "128MB".

(** Lines 71-74 of [main]: auto-generate the dataset if missing. *)
Definition provision (args : Args) : M unit :=
  present <- os_path_exists (data_path args) ;;
  if present then ret tt else generate_dataset (data_path args) (rows args).

(** Lines 76-106 of [main]: both pipelines, timed and followed by a memory
    sample, then the report. *)
Definition run_benchmark (args : Args) : M unit :=
  pandas <- timed (pandas_pipeline (data_path args)) ;;
  pandas_mem <- memory_usage_mb ;;
  dask <- timed (dask_pipeline (data_path args) (blocksize args)) ;;
  dask_mem <- memory_usage_mb ;;
  print (OText (String nl "=== Performance Comparison ===")) ;;;
  print (OTable [mkTableRow "Pandas" pandas.2 (round2 pandas_mem);
                 mkTableRow "Dask" dask.2 (round2 dask_mem)]) ;;;
  print (OText (String nl "=== Aggregation Output (Sample) ===")) ;;;
  print (OSeries dask.1).

(** [main(args)]; an exception escaping it ends the process with a
    traceback (the entry point does not catch). *)
Definition main (args : Args) : M unit :=
  provision args ;;; run_benchmark args.

(** The step at which a run of [main] raises: provisioning (generation),
    the eager pipeline, or the partitioned pipeline. *)
Inductive stage_raises (args : Args) (w : World) : exn -> World -> Prop :=
  | provision_raises e w1 :
      provision args w = Err e w1 -> stage_raises args w e w1
  | pandas_raises e w1 w2 :
      provision args w = Ok tt w1 ->
      pandas_pipeline (data_path args) (set_tick (S (w_tick w1)) w1) = Err e w2 ->
      stage_raises args w e w2
  | dask_raises e w1 m w2 w3 :
      provision args w = Ok tt w1 ->
      pandas_pipeline (data_path args) (set_tick (S (w_tick w1)) w1) = Ok m w2 ->
      dask_pipeline (data_path args) (blocksize args) (set_tick (S (S (w_tick w2))) w2) = Err e w3 ->
      stage_raises args w e w3.

(* ================================================================= *)
(** ** Sample environments *)

(** numpy draws: user ids 1, 7920, ..., labels A, D, C, B, ..., values
    -100.0, -63.0, -26.0, 11.0, ... *)
Definition rng0 : Rng :=
  mkRng (fun i => Z.of_nat i * 7919) (fun i => Z.of_nat i * 3)
        (fun i => mkDec (Z.of_nat i * 37 - 100) (-2)).

(** A clock ticking one second per reading. *)
Definition clock_up (i : nat) : Q := inject_Z (Z.of_nat i).

(** A wall clock set back while the program runs (NTP step, manual
    change): each reading is one second earlier than the previous one. *)
Definition clock_back (i : nat) : Q := inject_Z (1000 - Z.of_nat i).

Definition mk_env (fs : gmap string string) (clock : nat -> Q) : World :=
  mkWorld fs {[ "data"%string ]} ∅ ∅ false clock 0 (200 * 1024 * 1024)%N rng0 [].

(** Only the directory "data" exists. *)
Definition w_empty : World := mk_env ∅ clock_up.

Definition small_csv : string :=
  String.concat "" (map line ["category,value"; "A,1.5"; "B,-2"; "A,2.5"; "C,0"; "B,4"])%string.

(** "data/large_dataset.csv" holds [small_csv]. *)
Definition w_small : World :=
  mk_env {[ "data/large_dataset.csv"%string := small_csv ]} clock_up.

(** The same file, with a clock that goes backwards. *)
Definition w_small_back : World :=
  mk_env {[ "data/large_dataset.csv"%string := small_csv ]} clock_back.



(** A file of blank lines. *)
Definition blank_csv : string := String.concat "" (map line [""; ""])%string.

Definition w_blank : World := mk_env {[ "e.csv"%string := blank_csv ]} clock_up.

(** A file without a "value" column. *)
Definition novalue_csv : string := String.concat "" (map line ["category,amount"; "A,1"])%string.

Definition w_novalue : World := mk_env {[ "d.csv"%string := novalue_csv ]} clock_up.

(** A file holding only the header. *)
Definition header_csv : string := line "category,value".

Definition w_header : World := mk_env {[ "h.csv"%string := header_csv ]} clock_up.

(* ----------------------------------------------------------------- *)
(** ** Observations and measures used by the properties *)

(** The world an outcome ends in. *)
Definition world_of {A} (r : res A) : World :=
  match r with Ok _ w => w | Err _ w => w end.

(** The value or exception an outcome carries. *)
Definition value_of {A} (r : res A) : exn + A :=
  match r with Ok a _ => inr a | Err e _ => inl e end.

Definition has_key (c : string) (kv : list (string * Q)) : bool :=
  existsb (fun kq => String.eqb kq.1 c) kv.

Definition sum_key (c : string) (kv : list (string * Q)) : Q :=
  foldr (fun kq s => if String.eqb kq.1 c then (kq.2 + s)%Q else s) 0%Q kv.

Definition count_key (c : string) (kv : list (string * Q)) : Z :=
  foldr (fun kq n => if String.eqb kq.1 c then 1 + n else n) 0 kv.

(** The positive values of the records whose category cell is [c]. *)
Definition positive_values (vi ci : nat) (recs : list (list string)) (c : string) : list Q :=
  flat_map (fun r => match value_cell (cell r vi) with
                     | inr (Some q) =>
                         if Qle_bool q 0 then []
                         else if String.eqb (cell r ci) c then [q] else []
                     | _ => []
                     end) recs.

(** The arithmetic mean of a list of numbers. *)
Definition spec_mean (xs : list Q) : Q :=
  Qred (foldr Qplus 0%Q xs / inject_Z (Z.of_nat (length xs))).

Definition nonempty {A} (l : list A) : bool := match l with [] => false | _ => true end.

(** The eager pipeline after the read. *)
Definition pandas_on_text (text : string) : exn + Series :=
  match read_csv_text text with
  | inl e => inl e
  | inr (cols, recs) =>
      match filtered_kv cols recs with
      | inl e => inl e
      | inr kv => inr (groupby_mean kv)
      end
  end.

Definition after_read {A} (r : res string) (f : string -> exn + A) : res A :=
  match r with
  | Ok text w => match f text with inl e => Err e w | inr a => Ok a w end
  | Err e w => Err e w
  end.

Definition keeps_files {A} (m : M A) : Prop :=
  forall w, w_files (world_of (m w)) = w_files w.

(** The digit a character stands for. *)
Definition dval (c : ascii) : N := (N_of_ascii c - 48)%N.

(** The characters of the numbers and dates [to_csv] prints. *)
Definition num_char (c : ascii) : bool :=
  is_digit c || bool_decide (c = "-"%char) || bool_decide (c = "."%char) ||
  bool_decide (c = " "%char) || bool_decide (c = ":"%char).

Definition nosep (d : ascii) (s : string) : bool :=
  forallb (fun c => negb (bool_decide (c = d))) (list_ascii_of_string s).

(** The values above 0 of the generated rows of category [c]. *)
Definition gen_positive (c : string) (frame : list GenRow) : list Q :=
  flat_map (fun r => if String.eqb (g_category r) c
                     then let q := Q_of_dec (g_value r) in if Qle_bool q 0 then [] else [q]
                     else []) frame.

(** The four printed fields of a generated row. *)
Definition row4 (r : GenRow) : list string :=
  [str_Z (g_user_id r); g_category r; str_dec (g_value r); str_timestamp (g_timestamp r)].

(* ----------------------------------------------------------------- *)
(** ** Blocks, header fields and labelled groups *)








(** The labelled (category, value) pairs of the lazy pipeline: is [k] a key, the sum and the count of its values. *)
Definition dhas_key (k : option string) (kv : list (option string * Q)) : bool :=
  existsb (fun kq => bool_decide (kq.1 = k)) kv.



(** The pair a record gives to the lazy pipeline when its category column holds no number: the label is the text, or [None] (NaN) for a missing marker. *)
Definition label_pair (vi ci : nat) (r : list string) : list (option string * Q) :=
  match value_cell (cell r vi) with
  | inr (Some q) =>
      if Qle_bool q 0 then []
      else [(if is_na (cell r ci) then None else Some (cell r ci), q)]
  | _ => []
  end.

(* ================================================================= *)
(** * Properties *)

(* ----------------------------------------------------------------- *)
(** ** Sample computations *)

Example str_timestamp_start :
  str_timestamp ts_2023_01_01 = "2023-01-01 00:00:00"%string.
Proof. vm_compute. reflexivity. Qed.

Example str_timestamp_later :
  str_timestamp (ts_2023_01_01 + 86400 * 59 + 3661) = "2023-03-01 01:01:01"%string.
Proof. vm_compute. reflexivity. Qed.

Example str_dec_ex : str_dec (mkDec (-12345) (-2)) = "-123.45"%string.
Proof. vm_compute. reflexivity. Qed.

Example parse_number_ex : parse_number "-12.5e-1" = Some (Qmake (-125) 100).
Proof. vm_compute. reflexivity. Qed.

Example dirname_default : dirname "data/large_dataset.csv" = "data"%string.
Proof. reflexivity. Qed.
Example dirname_bare : dirname "dataset.csv" = ""%string.
Proof. reflexivity. Qed.

Example parse_bytes_default : parse_bytes "128MB" = Some 128000000.
Proof. vm_compute. reflexivity. Qed.

(* ----------------------------------------------------------------- *)
(** ** Line counting of generated files *)

Lemma count_nl_app a b : count_nl (String.append a b) = (count_nl a + count_nl b)%nat.
Proof. induction a as [|c a IH]; simpl; [done|]. rewrite IH. lia. Qed.

Lemma digit_char_not_nl d : digit_char d <> nl.
Proof.
  unfold digit_char, nl. intros H.
  apply (f_equal N_of_ascii) in H.
  assert (Hlt : (d mod 10 < 10)%N) by (apply N.mod_lt; discriminate).
  rewrite N_ascii_embedding in H by lia.
  change (N_of_ascii "010"%char) with 10%N in H.
  revert H. generalize (d mod 10)%N. intros x Hx. lia.
Qed.

Lemma count_nl_digits_go fuel n acc : count_nl (digits_go fuel n acc) = count_nl acc.
Proof.
  revert n acc. induction fuel as [|f IH]; intros n acc; simpl; [done|].
  destruct (n <? 10)%N; [|rewrite IH]; simpl;
    (destruct (decide (digit_char n = nl)) as [Heq|];
     [by destruct (digit_char_not_nl n)|done]).
Qed.

Lemma count_nl_str_Z z : count_nl (str_Z z) = 0%nat.
Proof.
  unfold str_Z, str_N. destruct (z <? 0); cbn [count_nl];
    rewrite count_nl_digits_go; [|done].
  by destruct (decide ("-"%char = nl)).
Qed.

Lemma count_nl_pad_left k s : count_nl (pad_left k s) = count_nl s.
Proof.
  unfold pad_left. rewrite count_nl_app.
  induction (k - String.length s)%nat as [|j IH]; simpl; [done|]. exact IH.
Qed.

Lemma count_nl_join d xs :
  count_nl d = 0%nat -> Forall (fun x => count_nl x = 0%nat) xs -> count_nl (join d xs) = 0%nat.
Proof.
  intros Hd Hxs. induction Hxs as [|x xs Hx Hxs IH]; [done|].
  destruct xs as [|y ys]; [done|].
  change (join d (x :: y :: ys)) with (String.append x (String.append d (join d (y :: ys)))).
  rewrite !count_nl_app, Hx, Hd, IH. done.
Qed.

Lemma count_nl_str_dec d : count_nl (str_dec d) = 0%nat.
Proof.
  unfold str_dec. destruct (d_mant d <? 0), (0 <=? d_exp d);
    rewrite !count_nl_app, ?count_nl_str_Z; simpl;
    rewrite ?count_nl_pad_left, ?count_nl_str_Z; done.
Qed.

Lemma count_nl_str_timestamp s : count_nl (str_timestamp s) = 0%nat.
Proof.
  unfold str_timestamp. destruct (civil_from_days (s / 86400)) as [[y m] d].
  apply count_nl_join; [done|].
  repeat constructor; rewrite ?count_nl_pad_left, ?count_nl_str_Z; done.
Qed.

Lemma count_nl_csv_line r :
  count_nl (g_category r) = 0%nat -> count_nl (csv_line r) = 0%nat.
Proof.
  intros Hc. unfold csv_line. apply count_nl_join; [done|].
  repeat constructor; auto using count_nl_str_Z, count_nl_str_dec, count_nl_str_timestamp.
Qed.

Lemma count_nl_concat_cons x xs :
  count_nl (String.concat "" (x :: xs)) = (count_nl x + count_nl (String.concat "" xs))%nat.
Proof.
  destruct xs as [|y ys]; [simpl; lia|].
  change (String.concat "" (x :: y :: ys))
    with (String.append x (String.append "" (String.concat "" (y :: ys)))).
  rewrite !count_nl_app. done.
Qed.

Lemma count_nl_concat_lines ls :
  Forall (fun l => count_nl l = 0%nat) ls ->
  count_nl (String.concat "" (map line ls)) = length ls.
Proof.
  intros Hls. induction Hls as [|l ls Hl Hls IH]; [done|].
  rewrite map_cons, count_nl_concat_cons, IH.
  unfold line. rewrite count_nl_app, Hl. simpl.
  by destruct (decide (nl = nl)).
Qed.

(* ----------------------------------------------------------------- *)
(** ** What the generator draws *)

Lemma randint_bounds lo hi raw : lo < hi -> lo <= randint lo hi raw < hi.
Proof.
  intros H. unfold randint.
  pose proof (Z.mod_pos_bound raw (hi - lo) ltac:(lia)). lia.
Qed.

Lemma choice_labels raw : In (choice labels raw) labels.
Proof.
  unfold choice. apply nth_In.
  pose proof (Z.mod_pos_bound raw (Z.of_nat (length labels)) ltac:(simpl; lia)).
  simpl in *. lia.
Qed.

Lemma labels_no_nl c : In c labels -> count_nl c = 0%nat.
Proof. simpl. intros [<-|[<-|[<-|[<-|[]]]]]; reflexivity. Qed.

Lemma gen_frame_fields g n :
  Forall (fun r => In (g_category r) labels /\ 1 <= g_user_id r < 100000) (gen_frame g n).
Proof.
  unfold gen_frame. apply Forall_forall. intros r Hr.
  apply list_elem_of_In, in_map_iff in Hr as (i & <- & _). simpl.
  split; [apply choice_labels|apply randint_bounds; lia].
Qed.

Lemma makedirs_ok d w u w' :
  makedirs d w = Ok u w' -> w_files w' = w_files w /\ w_rng w' = w_rng w.
Proof. unfold makedirs. intros H. repeat case_match; simplify_eq; done. Qed.

Lemma write_file_ok p t w u w' :
  write_file p t w = Ok u w' -> w_files w' = <[p := t]> (w_files w).
Proof. unfold write_file. intros H. repeat case_match; simplify_eq; done. Qed.

(** A successful [generate_dataset] leaves the serialised generated frame at
    the path. *)
Lemma generate_dataset_ok p n w u w' :
  generate_dataset p n w = Ok u w' ->
  0 <= n /\ w_files w' !! p = Some (to_csv (gen_frame (w_rng w) (Z.to_nat n))).
Proof.
  unfold generate_dataset, bind, get.
  destruct (makedirs (dirname p) w) as [[] w1|e w1] eqn:Hmk; [|done].
  apply makedirs_ok in Hmk as [_ Hrng].
  destruct (n <? 0) eqn:Hn; [done|]. intros Hw.
  apply write_file_ok in Hw. rewrite Hw, lookup_insert_eq, Hrng.
  split; [lia|done].
Qed.

Lemma append_empty_r s : String.append s EmptyString = s.
Proof. induction s as [|c s IH]; [done|]. exact (f_equal (String c) IH). Qed.

Lemma concat_cons_append x xs :
  String.concat "" (x :: xs) = String.append x (String.concat "" xs).
Proof. destruct xs; [exact (eq_sym (append_empty_r x))|done]. Qed.

Lemma length_gen_frame g n : length (gen_frame g n) = n.
Proof. unfold gen_frame. by rewrite length_map, length_seq. Qed.

(* ----------------------------------------------------------------- *)
(** ** C4 and C5: the generated dataset *)

(** C4: generating a dataset of [R > 0] rows writes a file with one header
    line and exactly [R] data lines, [R + 1] lines in total. *)
Theorem generate_dataset_line_count p n w u w' :
  0 < n -> generate_dataset p n w = Ok u w' ->
  exists data,
    w_files w' !! p = Some (String.append (line csv_header) (String.concat "" (map line data))) /\
    length data = Z.to_nat n /\
    Forall (fun l => count_nl l = 0%nat) data /\
    count_nl (String.append (line csv_header) (String.concat "" (map line data))) = (Z.to_nat n + 1)%nat.
Proof.
  intros Hpos Hgen. apply generate_dataset_ok in Hgen as [_ Hfile].
  set (frame := gen_frame (w_rng w) (Z.to_nat n)) in *.
  assert (Hnl : Forall (fun l => count_nl l = 0%nat) (map csv_line frame)).
  { apply Forall_map. eapply Forall_impl; [apply gen_frame_fields|].
    intros r [Hc _]. by apply count_nl_csv_line, labels_no_nl. }
  exists (map csv_line frame). split; [|split; [|split]].
  - rewrite Hfile. unfold to_csv. by rewrite map_cons, concat_cons_append.
  - unfold frame. by rewrite length_map, length_gen_frame.
  - exact Hnl.
  - rewrite count_nl_app, count_nl_concat_lines by exact Hnl.
    unfold frame. rewrite length_map, length_gen_frame. simpl. lia.
Qed.

Lemma generate_dataset_line_count_witness :
  exists data,
    w_files (world_of (generate_dataset "data/d.csv" 3 w_empty)) !! "data/d.csv"%string =
      Some (String.append (line csv_header) (String.concat "" (map line data))) /\
    length data = Z.to_nat 3 /\
    Forall (fun l => count_nl l = 0%nat) data /\
    count_nl (String.append (line csv_header) (String.concat "" (map line data))) = (Z.to_nat 3 + 1)%nat.
Proof.
  apply (generate_dataset_line_count "data/d.csv" 3 w_empty tt); [lia|].
  vm_compute. reflexivity.
Defined.

(** C5: in a freshly generated dataset every record's category is one of
    "A", "B", "C", "D" and every user_id lies in [[1, 100000)]. *)
Theorem generate_dataset_fields p n w u w' :
  generate_dataset p n w = Ok u w' ->
  exists frame,
    w_files w' !! p = Some (to_csv frame) /\
    Forall (fun r => In (g_category r) ["A"; "B"; "C"; "D"]%string /\
                     1 <= g_user_id r < 100000) frame.
Proof.
  intros Hgen. apply generate_dataset_ok in Hgen as [_ Hfile].
  eexists. split; [exact Hfile|apply gen_frame_fields].
Qed.

Lemma generate_dataset_fields_witness :
  exists frame,
    w_files (world_of (generate_dataset "data/d.csv" 3 w_empty)) !! "data/d.csv"%string =
      Some (to_csv frame) /\
    Forall (fun r => In (g_category r) ["A"; "B"; "C"; "D"]%string /\
                     1 <= g_user_id r < 100000) frame.
Proof.
  apply (generate_dataset_fields "data/d.csv" 3 w_empty tt).
  vm_compute. reflexivity.
Defined.

(* ----------------------------------------------------------------- *)
(** ** Group-by lookups *)

Lemma sum_key_absent c kv : has_key c kv = false -> sum_key c kv = 0%Q.
Proof.
  induction kv as [|[k q] kv IH]; simpl; [done|].
  destruct (String.eqb k c); [done|exact IH].
Qed.

Lemma count_key_absent c kv : has_key c kv = false -> count_key c kv = 0.
Proof.
  induction kv as [|[k q] kv IH]; simpl; [done|].
  destruct (String.eqb k c); [done|exact IH].
Qed.

Lemma group_sum_lookup c kv :
  group_sum kv !! c = if has_key c kv then Some (sum_key c kv) else None.
Proof.
  induction kv as [|[k q] kv IH]; simpl; [done|].
  destruct (String.eqb k c) eqn:Hkc.
  - apply String.eqb_eq in Hkc as <-. rewrite lookup_insert_eq.
    change (group_sum kv !! k = if has_key k kv then Some (sum_key k kv) else None) in IH.
    rewrite IH. destruct (has_key k kv) eqn:Hh; [done|].
    by rewrite sum_key_absent.
  - apply String.eqb_neq in Hkc. rewrite lookup_insert_ne by done. exact IH.
Qed.

Lemma group_count_lookup c kv :
  group_count kv !! c = if has_key c kv then Some (count_key c kv) else None.
Proof.
  induction kv as [|[k q] kv IH]; simpl; [done|].
  destruct (String.eqb k c) eqn:Hkc.
  - apply String.eqb_eq in Hkc as <-. rewrite lookup_insert_eq.
    change (group_count kv !! k = if has_key k kv then Some (count_key k kv) else None) in IH.
    rewrite IH. destruct (has_key k kv) eqn:Hh; [done|].
    by rewrite count_key_absent.
  - apply String.eqb_neq in Hkc. rewrite lookup_insert_ne by done. exact IH.
Qed.

Lemma groupby_mean_lookup c kv :
  groupby_mean kv !! c =
    if has_key c kv then Some (mean_of (sum_key c kv) (count_key c kv)) else None.
Proof.
  unfold groupby_mean, divide.
  rewrite lookup_merge, group_sum_lookup, group_count_lookup.
  by destruct (has_key c kv).
Qed.

(* ----------------------------------------------------------------- *)
(** ** The eager pipeline *)

Lemma has_key_app c a b : has_key c (a ++ b) = has_key c a || has_key c b.
Proof. unfold has_key. by rewrite existsb_app. Qed.



Lemma flat_map_keep_row vi ci recs c :
  is_na c = false ->
  has_key c (flat_map (keep_row vi ci) recs) = nonempty (positive_values vi ci recs c) /\
  sum_key c (flat_map (keep_row vi ci) recs) == foldr Qplus 0%Q (positive_values vi ci recs c) /\
  count_key c (flat_map (keep_row vi ci) recs) = Z.of_nat (length (positive_values vi ci recs c)).
Proof.
  intros Hc. induction recs as [|r recs (IH1 & IH2 & IH3)]; [simpl; split_and!; done|].
  unfold positive_values in *. simpl flat_map.
  remember (keep_row vi ci r) as k eqn:Hk. unfold keep_row in Hk.
  destruct (value_cell (cell r vi)) as [e|[q|]]; subst k; simpl; [by split_and!| |by split_and!].
  destruct (Qle_bool q 0); simpl; [by split_and!|].
  destruct (is_na (cell r ci)) eqn:Hna, (String.eqb (cell r ci) c) eqn:Heq; simpl.
  - apply String.eqb_eq in Heq. congruence.
  - by split_and!.
  - unfold has_key, sum_key, count_key in *. simpl. rewrite Heq. simpl.
    split_and!; [done|rewrite IH2; reflexivity|rewrite IH3; lia].
  - unfold has_key, sum_key, count_key in *. simpl. rewrite Heq. simpl. by split_and!.
Qed.

Lemma flat_map_keep_row_na vi ci recs c :
  is_na c = true -> has_key c (flat_map (keep_row vi ci) recs) = false.
Proof.
  intros Hc. induction recs as [|r recs IH]; [done|].
  simpl flat_map. rewrite has_key_app, IH, orb_false_r.
  unfold keep_row. destruct (value_cell (cell r vi)) as [|[q|]]; [done| |done].
  destruct (Qle_bool q 0); [done|].
  destruct (is_na (cell r ci)) eqn:Hna; [done|]. simpl.
  destruct (String.eqb (cell r ci) c) eqn:Heq; [|done].
  apply String.eqb_eq in Heq. congruence.
Qed.

Lemma read_file_ok p w t w' :
  read_file p w = Ok t w' -> w_files w !! p = Some t /\ w' = w.
Proof. unfold read_file. intros H. repeat case_match; simplify_eq; done. Qed.

(** What a successful eager run has read and computed. *)
Lemma pandas_pipeline_ok p w m w' :
  pandas_pipeline p w = Ok m w' ->
  exists text cols recs vi ci,
    w_files w !! p = Some text /\ read_csv_text text = inr (cols, recs) /\
    col_index "value" cols = Some vi /\ col_index "category" cols = Some ci /\
    check_values vi recs = None /\
    m = groupby_mean (flat_map (keep_row vi ci) recs) /\ w' = w.
Proof.
  unfold pandas_pipeline, bind, lift, ret, raise.
  destruct (read_file p w) as [text w1|] eqn:Hr; [|done].
  apply read_file_ok in Hr as [Hfile ->].
  destruct (read_csv_text text) as [|[cols recs]] eqn:Hcsv; [done|]. simpl.
  unfold filtered_kv.
  destruct (col_index "value" cols) as [vi|] eqn:Hvi; [|done].
  destruct (check_values vi recs) eqn:Hchk; [done|].
  destruct (col_index "category" cols) as [ci|] eqn:Hci; [|done].
  intros H. simplify_eq. eexists _, _, _, _, _. split_and!; eauto.
Qed.

(** The mean of every category of a successful eager run, in terms of the
    file's records. *)
Lemma pandas_pipeline_lookup p w m w' :
  pandas_pipeline p w = Ok m w' ->
  exists text cols recs vi ci,
    w_files w !! p = Some text /\ read_csv_text text = inr (cols, recs) /\
    col_index "value" cols = Some vi /\ col_index "category" cols = Some ci /\
    forall c, m !! c =
      if is_na c then None
      else match positive_values vi ci recs c with
           | [] => None
           | xs => Some (spec_mean xs)
           end.
Proof.
  intros H. apply pandas_pipeline_ok in H
    as (text & cols & recs & vi & ci & Hf & Hcsv & Hvi & Hci & _ & -> & _).
  exists text, cols, recs, vi, ci. split_and!; try done.
  intros c. rewrite groupby_mean_lookup.
  destruct (is_na c) eqn:Hna.
  - by rewrite flat_map_keep_row_na.
  - destruct (flat_map_keep_row vi ci recs c Hna) as (H1 & H2 & H3).
    rewrite H1, H3.
    destruct (positive_values vi ci recs c) as [|q xs] eqn:Hp; [done|]. simpl.
    f_equal. unfold mean_of, spec_mean. apply Qred_complete. rewrite H2. done.
Qed.

(* ----------------------------------------------------------------- *)
(** ** C2 and C10: what the eager pipeline returns *)







(* ----------------------------------------------------------------- *)
(** ** The pipelines read the file and compute on its text *)

Lemma pandas_pipeline_factor p w :
  pandas_pipeline p w = after_read (read_file p w) pandas_on_text.
Proof.
  unfold pandas_pipeline, after_read, pandas_on_text, bind, lift, ret, raise.
  destruct (read_file p w) as [text w1|]; [|done].
  destruct (read_csv_text text) as [|[cols recs]]; [done|].
  simpl. by destruct (filtered_kv cols recs).
Qed.

(* ----------------------------------------------------------------- *)
Lemma check_values_app vi a b :
  check_values vi (a ++ b) = None -> check_values vi a = None /\ check_values vi b = None.
Proof.
  induction a as [|r a IH]; simpl; [done|].
  destruct (value_cell (cell r vi)); [done|exact IH].
Qed.



(* ----------------------------------------------------------------- *)
(** ** The pipelines leave the world as it is *)

Lemma read_file_world p w : world_of (read_file p w) = w.
Proof. unfold read_file. by repeat case_match. Qed.

Lemma after_read_world {A} (r : res string) (f : string -> exn + A) :
  world_of (after_read r f) = world_of r.
Proof. destruct r as [t w|e w]; simpl; [by destruct (f t)|done]. Qed.

Lemma dask_open_world p n w : world_of (dask_open p n w) = w.
Proof. unfold dask_open. by repeat case_match. Qed.

Lemma dask_world p bs w : world_of (dask_pipeline p bs w) = w.
Proof.
  unfold dask_pipeline, bind, lift.
  destruct (parse_bytes bs) as [n|]; simpl; [|done].
  pose proof (dask_open_world p n w) as Hw.
  destruct (dask_open p n w) as [text w1|e w1]; simpl in *; [|done].
  subst w1. by destruct (dask_on_text n text).
Qed.

(* ----------------------------------------------------------------- *)
(** ** Which steps touch the files *)

Lemma keeps_bind {A B} (m : M A) (k : A -> M B) :
  keeps_files m -> (forall a, keeps_files (k a)) -> keeps_files (bind m k).
Proof.
  intros Hm Hk w. unfold bind. specialize (Hm w).
  destruct (m w) as [a w1|e w1]; simpl in *; [by rewrite Hk|done].
Qed.

Lemma keeps_ret {A} (a : A) : keeps_files (ret a).
Proof. done. Qed.

Lemma keeps_time_time : keeps_files time_time.
Proof. done. Qed.

Lemma keeps_memory_usage_mb : keeps_files memory_usage_mb.
Proof. done. Qed.

Lemma keeps_print o : keeps_files (print o).
Proof. done. Qed.

Lemma keeps_pandas_pipeline p : keeps_files (pandas_pipeline p).
Proof.
  intros w. by rewrite pandas_pipeline_factor, after_read_world, read_file_world.
Qed.

Lemma keeps_dask_pipeline p bs : keeps_files (dask_pipeline p bs).
Proof. intros w. by rewrite dask_world. Qed.

Lemma keeps_timed {A} (f : M A) : keeps_files f -> keeps_files (timed f).
Proof.
  intros Hf. unfold timed.
  repeat (apply keeps_bind; [first [apply keeps_time_time|exact Hf]|intros ?]).
  apply keeps_ret.
Qed.

Create HintDb keeps.
#[local] Hint Resolve keeps_ret keeps_time_time keeps_memory_usage_mb keeps_print
  keeps_pandas_pipeline keeps_dask_pipeline keeps_timed : keeps.

Lemma keeps_run_benchmark a : keeps_files (run_benchmark a).
Proof.
  unfold run_benchmark.
  repeat (apply keeps_bind; [auto with keeps|intros ?]). auto with keeps.
Qed.

Lemma os_path_exists_file p w t :
  p <> ""%string -> w_files w !! p = Some t -> os_path_exists p w = Ok true w.
Proof.
  intros Hp Hf. unfold os_path_exists.
  apply String.eqb_neq in Hp. rewrite Hp, Hf. done.
Qed.

Lemma dirname_empty : dirname "" = ""%string.
Proof. reflexivity. Qed.

(** C3: when a file already exists at the data path, a run of [main]
    (whatever --rows and --blocksize are, and however it ends) leaves every
    file as it was; in particular the dataset is neither rewritten nor
    regenerated. *)
Theorem main_keeps_existing_dataset a w t :
  w_files w !! data_path a = Some t ->
  w_files (world_of (main a w)) = w_files w /\
  w_files (world_of (main a w)) !! data_path a = Some t.
Proof.
  intros Hf.
  assert (Hk : w_files (world_of (main a w)) = w_files w).
  { unfold main, bind.
    destruct (String.eqb (data_path a) "") eqn:Hp.
    - apply String.eqb_eq in Hp.
      unfold provision, bind, os_path_exists. rewrite Hp. done.
    - apply String.eqb_neq in Hp.
      assert (Hprov : provision a w = Ok tt w).
      { unfold provision, bind. by rewrite (os_path_exists_file _ _ t Hp Hf). }
      rewrite Hprov. apply keeps_run_benchmark. }
  split; [exact Hk|by rewrite Hk].
Qed.

Lemma main_keeps_existing_dataset_witness :
  w_files w_small !! data_path default_args = Some small_csv /\
  w_files (world_of (main default_args w_small)) = w_files w_small /\
  w_files (world_of (main default_args w_small)) !! data_path default_args = Some small_csv.
Proof.
  assert (H : w_files w_small !! data_path default_args = Some small_csv)
    by (vm_compute; reflexivity).
  split; [exact H|apply (main_keeps_existing_dataset default_args w_small small_csv H)].
Defined.

(* ----------------------------------------------------------------- *)
(** ** C7: the printed report *)

Lemma pandas_world p w : world_of (pandas_pipeline p w) = w.
Proof. by rewrite pandas_pipeline_factor, after_read_world, read_file_world. Qed.

Lemma makedirs_env d w :
  let w' := world_of (makedirs d w) in
  w_clock w' = w_clock w /\ w_tick w' = w_tick w /\
  w_stdout w' = w_stdout w /\ w_rss w' = w_rss w.
Proof. unfold makedirs. repeat case_match; done. Qed.

Lemma write_file_env p t w :
  let w' := world_of (write_file p t w) in
  w_clock w' = w_clock w /\ w_tick w' = w_tick w /\
  w_stdout w' = w_stdout w /\ w_rss w' = w_rss w.
Proof. unfold write_file. repeat case_match; done. Qed.

Lemma provision_env a w :
  let w' := world_of (provision a w) in
  w_clock w' = w_clock w /\ w_tick w' = w_tick w /\
  w_stdout w' = w_stdout w /\ w_rss w' = w_rss w.
Proof.
  cbv beta iota zeta delta [provision bind os_path_exists].
  case_match; [done|].
  cbv beta iota zeta delta [generate_dataset bind get raise ret].
  pose proof (makedirs_env (dirname (data_path a)) w) as (Hc & Ht & Ho & Hr).
  destruct (makedirs _ w) as [[] w0|e w0]; [|done]. simpl in Hc, Ht, Ho, Hr.
  case_match; [done|].
  pose proof (write_file_env (data_path a)
    (to_csv (gen_frame (w_rng w0) (Z.to_nat (rows a)))) w0) as (Hc' & Ht' & Ho' & Hr').
  split_and!; congruence.
Qed.

(** What a successful benchmark run prints: the two-row table, timed by
    four successive clock readings, and the dask result. *)
Lemma run_benchmark_ok a w1 u w' :
  run_benchmark a w1 = Ok u w' ->
  exists s,
    w_stdout w' = w_stdout w1 ++
      [OText (String nl "=== Performance Comparison ===");
       OTable [mkTableRow "Pandas"
                 (round2 (w_clock w1 (S (w_tick w1)) - w_clock w1 (w_tick w1)))
                 (round2 (inject_Z (Z.of_N (w_rss w1)) / inject_Z (1024 ^ 2)));
               mkTableRow "Dask"
                 (round2 (w_clock w1 (S (S (S (w_tick w1)))) - w_clock w1 (S (S (w_tick w1)))))
                 (round2 (inject_Z (Z.of_N (w_rss w1)) / inject_Z (1024 ^ 2)))];
       OText (String nl "=== Aggregation Output (Sample) ===");
       OSeries s].
Proof.
  cbv beta iota delta [run_benchmark timed bind time_time memory_usage_mb print modify ret].
  match goal with |- context [pandas_pipeline ?p ?ww] =>
    pose proof (pandas_world p ww) as Hpw; destruct (pandas_pipeline p ww) as [m w2|e w2];
    simpl in Hpw; subst w2; [|done] end.
  match goal with |- context [dask_pipeline ?p ?b ?ww] =>
    pose proof (dask_world p b ww) as Hdw; destruct (dask_pipeline p b ww) as [s w3|e w3];
    simpl in Hdw; subst w3; [|done] end.
  intros H. injection H as _ <-. exists s. simpl.
  by rewrite <- !app_assoc.
Qed.

Lemma round2_nonneg q : (0 <= q)%Q -> (0 <= round2 q)%Q.
Proof.
  intros Hq. cbv beta zeta delta [round2].
  assert (Hf : 0 <= Qfloor (q * 100)).
  { pose proof (Qlt_floor (q * 100)) as Hlt.
    assert (H100 : (0 <= q * 100)%Q) by (apply Qmult_le_0_compat; [done|unfold Qle; simpl; lia]).
    assert (Hpos : (0 < inject_Z (Qfloor (q * 100) + 1))%Q) by (eapply Qle_lt_trans; eauto).
    revert Hpos. generalize (Qfloor (q * 100)). intros f Hpos.
    unfold Qlt in Hpos; simpl in Hpos. lia. }
  rewrite Qred_correct. revert Hf. generalize (Qfloor (q * 100)). intros f Hf.
  destruct (Qeq_bool _ _); [destruct (Z.even _)|destruct (Qle_bool _ _)];
    unfold Qle; simpl; lia.
Qed.

Lemma rss_mb_nonneg (n : N) : (0 <= inject_Z (Z.of_N n) / inject_Z (1024 ^ 2))%Q.
Proof.
  apply Qmult_le_0_compat.
  - unfold Qle; simpl; lia.
  - apply Qinv_le_0_compat. unfold Qle; simpl; lia.
Qed.

Lemma clock_step_nonneg (clock : nat -> Q) i :
  (forall j, clock j <= clock (S j))%Q -> (0 <= round2 (clock (S i) - clock i))%Q.
Proof.
  intros Hmono. apply round2_nonneg.
  pose proof (Hmono i) as H. apply Qle_minus_iff in H. exact H.
Qed.

(** C7, as stated, fails: [timed] reads the wall clock ([time.time()]),
    not a monotonic one; with the clock set back during the run the
    printed Pandas and Dask times are -1.0. *)
Lemma main_report_negative_time :
  exists w',
    main default_args w_small_back = Ok tt w' /\
    exists rows, In (OTable rows) (w_stdout w') /\
    Exists (fun r => exec_time r < 0)%Q rows.
Proof.
  exists (world_of (main default_args w_small_back)).
  split; [vm_compute; reflexivity|].
  eexists. split.
  - vm_compute. right. left. reflexivity.
  - constructor. vm_compute. reflexivity.
Qed.

(** C7 (amended): a successful run prints exactly one table, with two rows
    "Pandas" and "Dask"; both memory fields are [>= 0]; each time field is
    the difference of two successive wall-clock readings ([time.time()])
    rounded to two decimals, and both are [>= 0] whenever the wall clock
    does not go backwards during the run. *)
Theorem main_report_table a w u w' :
  main a w = Ok u w' ->
  exists s pm dm,
    w_stdout w' = w_stdout w ++
      [OText (String nl "=== Performance Comparison ===");
       OTable [mkTableRow "Pandas"
                 (round2 (w_clock w (S (w_tick w)) - w_clock w (w_tick w))) pm;
               mkTableRow "Dask"
                 (round2 (w_clock w (S (S (S (w_tick w)))) - w_clock w (S (S (w_tick w))))) dm];
       OText (String nl "=== Aggregation Output (Sample) ===");
       OSeries s] /\
    (0 <= pm)%Q /\ (0 <= dm)%Q /\
    ((forall i, w_clock w i <= w_clock w (S i))%Q ->
     (0 <= round2 (w_clock w (S (w_tick w)) - w_clock w (w_tick w)))%Q /\
     (0 <= round2 (w_clock w (S (S (S (w_tick w)))) - w_clock w (S (S (w_tick w)))))%Q).
Proof.
  unfold main, bind. pose proof (provision_env a w) as Henv.
  destruct (provision a w) as [[] w1|e w1]; [|done]. simpl in Henv.
  destruct Henv as (Hc & Ht & Ho & Hr).
  intros H. apply run_benchmark_ok in H as [s Hs].
  rewrite Hc, Ht, Ho, Hr in Hs.
  eexists s, _, _. split_and!; [exact Hs|apply round2_nonneg, rss_mb_nonneg..|].
  intros Hmono. split; apply clock_step_nonneg; exact Hmono.
Qed.

Lemma main_report_table_witness :
  exists w',
    main default_args w_small = Ok tt w' /\
    exists s pm dm,
      w_stdout w' = w_stdout w_small ++
        [OText (String nl "=== Performance Comparison ===");
         OTable [mkTableRow "Pandas"
                   (round2 (w_clock w_small (S (w_tick w_small)) - w_clock w_small (w_tick w_small))) pm;
                 mkTableRow "Dask"
                   (round2 (w_clock w_small (S (S (S (w_tick w_small)))) -
                            w_clock w_small (S (S (w_tick w_small))))) dm];
         OText (String nl "=== Aggregation Output (Sample) ===");
         OSeries s] /\
      (0 <= pm)%Q /\ (0 <= dm)%Q /\
      ((forall i, w_clock w_small i <= w_clock w_small (S i))%Q ->
       (0 <= round2 (w_clock w_small (S (w_tick w_small)) - w_clock w_small (w_tick w_small)))%Q /\
       (0 <= round2 (w_clock w_small (S (S (S (w_tick w_small)))) -
                     w_clock w_small (S (S (w_tick w_small)))))%Q).
Proof.
  eexists. split; [vm_compute; reflexivity|].
  apply (main_report_table default_args w_small tt). vm_compute. reflexivity.
Defined.

(* ----------------------------------------------------------------- *)
(** ** C8: errors are not caught *)

Lemma provision_stdout a w : w_stdout (world_of (provision a w)) = w_stdout w.
Proof. apply (provision_env a w). Qed.

(** C8: whichever stage raises (provisioning, the pandas pipeline or the
    dask pipeline), [main] ends with that same exception, unchanged, and
    prints nothing: no stage catches, retries or recovers. *)
Theorem main_propagates_errors a w e w' :
  stage_raises a w e w' ->
  main a w = Err e w' /\ w_stdout w' = w_stdout w.
Proof.
  intros Hs. pose proof (provision_stdout a w) as Ho.
  destruct Hs as [e w1 Hp|e w1 w2 Hp Hpd|e w1 m w2 w3 Hp Hpd Hd];
    unfold main, bind; rewrite Hp; rewrite Hp in Ho; simpl in Ho.
  - done.
  - cbv beta iota delta [run_benchmark timed bind time_time memory_usage_mb print modify ret].
    rewrite Hpd. split; [done|].
    pose proof (pandas_world (data_path a) (set_tick (S (w_tick w1)) w1)) as Hw.
    rewrite Hpd in Hw. simpl in Hw. by subst w2.
  - cbv beta iota delta [run_benchmark timed bind time_time memory_usage_mb print modify ret].
    rewrite Hpd.
    match goal with |- context [dask_pipeline ?p ?b ?ww] =>
      replace ww with (set_tick (S (S (w_tick w2))) w2) by reflexivity end.
    rewrite Hd. split; [done|].
    pose proof (pandas_world (data_path a) (set_tick (S (w_tick w1)) w1)) as Hw.
    rewrite Hpd in Hw. simpl in Hw. subst w2.
    pose proof (dask_world (data_path a) (blocksize a)
      (set_tick (S (S (w_tick (set_tick (S (w_tick w1)) w1)))) (set_tick (S (w_tick w1)) w1))) as Hw'.
    rewrite Hd in Hw'. simpl in Hw'. by subst w3.
Qed.

Lemma main_propagates_errors_witness :
  exists e w',
    stage_raises (mkArgs "data/large_dataset.csv" 1000000 "lots") w_small e w' /\
    main (mkArgs "data/large_dataset.csv" 1000000 "lots") w_small = Err e w' /\
    w_stdout w' = w_stdout w_small.
Proof.
  eexists _, _.
  match goal with |- ?P /\ _ =>
    assert (Hs : P) by (eapply dask_raises; vm_compute; reflexivity) end.
  split; [exact Hs|].
  exact (main_propagates_errors _ _ _ _ Hs).
Defined.

(* ----------------------------------------------------------------- *)
(** ** C9: a data path without a directory part *)

Lemma last_sep_end_no_slash l idx acc :
  existsb is_slash l = false -> last_sep_end l idx acc = acc.
Proof.
  revert idx acc. induction l as [|c l IH]; intros idx acc H; [done|].
  simpl in H. apply orb_false_iff in H as [Hc Hl].
  simpl. rewrite IH by done.
  unfold is_slash in Hc. case_decide; [|done].
  by rewrite bool_decide_eq_true_2 in Hc.
Qed.

Lemma dirname_no_slash p :
  existsb is_slash (list_ascii_of_string p) = false -> dirname p = "".
Proof.
  intros H. unfold dirname. by rewrite last_sep_end_no_slash.
Qed.

(** C9: if the data path has no '/' and names neither a file nor a
    directory, [main] raises [FileNotFoundError] from [os.makedirs("")]
    before anything is written: the world, the file system included, is
    left as it was and the dataset is not created. *)
Theorem main_bare_path_fails a w :
  existsb is_slash (list_ascii_of_string (data_path a)) = false ->
  w_files w !! data_path a = None ->
  data_path a ∉ w_dirs w ->
  main a w = Err (FileNotFoundError "") w /\ w_files w !! data_path a = None.
Proof.
  intros Hsl Hf Hd. split; [|done].
  unfold main, provision, bind, os_path_exists.
  rewrite (bool_decide_eq_false_2 (data_path a ∈ w_dirs w)) by done.
  rewrite Hf, (bool_decide_eq_false_2 (is_Some None)) by (intros [? ?]; discriminate).
  rewrite orb_false_r, andb_false_r.
  unfold generate_dataset, bind, makedirs.
  by rewrite dirname_no_slash.
Qed.

Lemma main_bare_path_fails_witness :
  main (mkArgs "dataset.csv" 1000000 "128MB") w_empty = Err (FileNotFoundError "") w_empty /\
  w_files w_empty !! "dataset.csv" = None.
Proof.
  apply main_bare_path_fails; [reflexivity|reflexivity|].
  vm_compute. set_solver.
Defined.

(* ================================================================= *)
(** ** Further properties of the code *)


Lemma Qmake_100 r : (r # 100 == inject_Z r * (1 # 100))%Q.
Proof. unfold Qeq; simpl; lia. Qed.

Lemma round2_digit q :
  exists r, round2 q = Qred (r # 100) /\
    (inject_Z r - (1 # 2) <= q * 100 <= inject_Z r + (1 # 2))%Q.
Proof.
  cbv beta zeta delta [round2].
  pose proof (Qfloor_le (q * 100)) as Hle.
  pose proof (Qlt_floor (q * 100)) as Hlt. rewrite inject_Z_plus in Hlt.
  revert Hle Hlt. generalize (Qfloor (q * 100)). intros f Hle Hlt.
  assert (H1 : (inject_Z 1 == 1)%Q) by reflexivity.
  destruct (Qeq_bool _ _) eqn:He; [apply Qeq_bool_iff in He|].
  - destruct (Z.even f); [exists f|exists (f + 1)]; (split; [done|]);
      rewrite ?inject_Z_plus; split; lra.
  - destruct (Qle_bool _ _) eqn:Hl; [apply Qle_bool_iff in Hl; exists f|exists (f + 1)];
      (split; [done|]); rewrite ?inject_Z_plus.
    + split; lra.
    + assert (Hn : ~ (q * 100 - inject_Z f <= 1 # 2)%Q)
        by (intros H; apply Qle_bool_iff in H; congruence).
      apply Qnot_le_lt in Hn. split; lra.
Qed.

(** Python's [round(x, 2)], which [timed] applies to each duration and
    [main] to each memory figure, is within half a hundredth of its
    argument. *)
Lemma round2_close q : (Qabs (round2 q - q) <= 1 # 200)%Q.
Proof.
  destruct (round2_digit q) as (r & -> & H1 & H2).
  rewrite Qred_correct, Qmake_100. apply Qabs_Qle_condition. split; lra.
Qed.

Lemma Qeq_bool_l a b c : (a == b)%Q -> Qeq_bool a c = Qeq_bool b c.
Proof.
  intros H. destruct (Qeq_bool a c) eqn:E1, (Qeq_bool b c) eqn:E2; try done; exfalso.
  - apply Qeq_bool_iff in E1. rewrite H in E1. apply Qeq_bool_iff in E1. congruence.
  - apply Qeq_bool_iff in E2. rewrite <- H in E2. apply Qeq_bool_iff in E2. congruence.
Qed.

Lemma Qle_bool_l a b c : (a == b)%Q -> Qle_bool a c = Qle_bool b c.
Proof.
  intros H. destruct (Qle_bool a c) eqn:E1, (Qle_bool b c) eqn:E2; try done; exfalso.
  - apply Qle_bool_iff in E1. rewrite H in E1. apply Qle_bool_iff in E1. congruence.
  - apply Qle_bool_iff in E2. rewrite <- H in E2. apply Qle_bool_iff in E2. congruence.
Qed.

Lemma round2_Qeq p q : (p == q)%Q -> round2 p = round2 q.
Proof.
  intros H. cbv beta zeta delta [round2].
  assert (Hx : (p * 100 == q * 100)%Q) by (rewrite H; reflexivity).
  rewrite (Qfloor_comp _ _ Hx).
  assert (Hd : (p * 100 - inject_Z (Qfloor (q * 100)) == q * 100 - inject_Z (Qfloor (q * 100)))%Q)
    by (rewrite Hx; reflexivity).
  by rewrite (Qeq_bool_l _ _ _ Hd), (Qle_bool_l _ _ _ Hd).
Qed.

Lemma round2_hundredths r : round2 (r # 100) = Qred (r # 100).
Proof.
  cbv beta zeta delta [round2].
  replace (Qfloor ((r # 100) * 100)) with r.
  2:{ unfold Qfloor. simpl. rewrite Z.div_mul by lia. done. }
  replace (Qeq_bool ((r # 100) * 100 - inject_Z r) (1 # 2)) with false.
  2:{ symmetry. apply not_true_iff_false. rewrite Qeq_bool_iff. unfold Qeq; simpl; lia. }
  replace (Qle_bool ((r # 100) * 100 - inject_Z r) (1 # 2)) with true.
  2:{ symmetry. apply Qle_bool_iff. unfold Qle; simpl; lia. }
  done.
Qed.

(** Rounding a rounded figure again leaves it unchanged. *)
Lemma round2_idem q : round2 (round2 q) = round2 q.
Proof.
  destruct (round2_digit q) as (r & -> & _).
  rewrite (round2_Qeq _ (r # 100)) by apply Qred_correct.
  apply round2_hundredths.
Qed.

(* ----------------------------------------------------------------- *)
Lemma positive_values_pos vi ci recs c q :
  In q (positive_values vi ci recs c) -> (0 < q)%Q.
Proof.
  induction recs as [|r recs IH]; [done|].
  unfold positive_values. simpl flat_map. fold (positive_values vi ci recs c).
  rewrite in_app_iff. intros [Hin|Hin]; [|by apply IH].
  destruct (value_cell (cell r vi)) as [|[q'|]]; [done| |done].
  destruct (Qle_bool q' 0) eqn:Hle; [done|].
  destruct (String.eqb _ _); [|done]. destruct Hin as [<-|[]].
  apply Qnot_le_lt. intros H. apply Qle_bool_iff in H. congruence.
Qed.

Lemma spec_mean_pos xs :
  xs <> [] -> (forall q, In q xs -> 0 < q)%Q -> (0 < spec_mean xs)%Q.
Proof.
  intros Hne Hall. unfold spec_mean. rewrite Qred_correct.
  assert (Hs : (0 < foldr Qplus 0 xs)%Q).
  { destruct xs as [|x xs]; [done|]. clear Hne. revert x Hall.
    induction xs as [|y xs IH]; intros x Hall; simpl.
    - pose proof (Hall x (or_introl eq_refl)). lra.
    - assert (H0 : (0 < foldr Qplus 0 (y :: xs))%Q) by (apply IH; intros q Hq; apply Hall; by right).
      simpl in H0. pose proof (Hall x (or_introl eq_refl)). lra. }
  apply Qlt_shift_div_l.
  - destruct xs; [done|]. unfold Qlt; simpl; lia.
  - lra.
Qed.

(** Every mean the eager pipeline returns is strictly positive. *)
Lemma pandas_means_positive p w m w' c x :
  pandas_pipeline p w = Ok m w' -> m !! c = Some x -> (0 < x)%Q.
Proof.
  intros H Hc. apply pandas_pipeline_lookup in H as (text & cols & recs & vi & ci & _ & _ & _ & _ & Hm).
  rewrite Hm in Hc. destruct (is_na c); [done|].
  destruct (positive_values vi ci recs c) as [|q xs] eqn:Hp; [done|]. injection Hc as <-.
  apply spec_mean_pos; [done|]. intros q' Hq'. rewrite <- Hp in Hq'.
  by eapply positive_values_pos.
Qed.

(* ----------------------------------------------------------------- *)
(** ** Edge files *)
Lemma read_file_readable p w text :
  w_files w !! p = Some text -> p ∉ w_dirs w -> p ∉ w_no_read w -> read_file p w = Ok text w.
Proof.
  intros Hf Hd Hr. unfold read_file.
  by rewrite bool_decide_eq_false_2, Hf, bool_decide_eq_false_2.
Qed.

Lemma offsets_error_pos size n : 0 < n -> offsets_error size n = None.
Proof.
  intros Hn. unfold offsets_error.
  destruct (size =? 0); [done|].
  by rewrite (proj2 (Z.eqb_neq n 0)), (proj2 (Z.ltb_ge n 0)) by lia.
Qed.

Lemma dask_open_file p n w text :
  w_files w !! p = Some text -> p ∉ w_dirs w -> p ∉ w_no_read w -> 0 < n ->
  dask_open p n w = Ok text w.
Proof.
  intros Hf Hd Hr Hn. unfold dask_open.
  by rewrite bool_decide_eq_false_2, Hf, offsets_error_pos, bool_decide_eq_false_2.
Qed.

Lemma dask_pipeline_open p bs w n text :
  parse_bytes bs = Some n -> dask_open p n w = Ok text w ->
  dask_pipeline p bs w = after_read (Ok text w) (dask_on_text n).
Proof.
  intros Hn Ho. unfold dask_pipeline, bind, lift. rewrite Hn. simpl. rewrite Ho. simpl.
  by destruct (dask_on_text n text).
Qed.

Lemma String_length_chars s : String.length s = length (list_ascii_of_string s).
Proof. induction s as [|c s IH]; simpl; [done|]. by rewrite IH. Qed.

Lemma find_nl_bounds l pos o j :
  find_nl l pos o = Some j ->
  o <= j /\ pos <= j < pos + Z.of_nat (length l) /\ nth_error l (Z.to_nat (j - pos)) = Some nl.
Proof.
  revert pos. induction l as [|c l IH]; intros pos; simpl; [done|].
  destruct ((o <=? pos) && bool_decide (c = nl)) eqn:E.
  - intros [= <-]. apply andb_prop in E as [E1 E2].
    apply Z.leb_le in E1. apply bool_decide_eq_true_1 in E2. subst c.
    rewrite Z.sub_diag. simpl. split_and!; [lia|lia|lia|done].
  - intros H. destruct (IH _ H) as (H1 & H2 & H3). split_and!; [lia|lia|lia|].
    replace (Z.to_nat (j - pos)) with (S (Z.to_nat (j - (pos + 1)))) by lia. exact H3.
Qed.

Lemma find_nl_past l pos o : pos + Z.of_nat (length l) <= o -> find_nl l pos o = None.
Proof.
  intros H. destruct (find_nl l pos o) as [j|] eqn:E; [|done].
  apply find_nl_bounds in E. lia.
Qed.

Lemma take_sample_short text :
  Z.of_nat (String.length text) < sample_size -> take_sample text = text.
Proof.
  intros H. unfold take_sample. rewrite find_nl_past; [done|].
  rewrite String_length_chars in H. lia.
Qed.

Lemma forallb_firstn {A} (f : A -> bool) k l :
  forallb f l = true -> forallb f (firstn k l) = true.
Proof.
  revert l. induction k as [|k IH]; intros [|x l]; simpl; try done.
  intros [-> H]%andb_prop. by apply IH.
Qed.

(** The chars of a text made of newlines only. *)
Lemma read_lines_nil_chars s :
  read_lines s = [] <-> Forall (fun c => c = nl) (list_ascii_of_string s).
Proof.
  unfold read_lines. induction s as [|c s IH]; simpl; [split; done|].
  destruct (decide (c = nl)) as [->|Hc].
  - simpl. rewrite IH. split; [by constructor|by inversion 1].
  - split; [|inversion 1; done].
    destruct (split_on nl s); simpl; done.
Qed.

Lemma split_on_nl_only s :
  Forall (fun c => c = nl) (list_ascii_of_string s) ->
  split_on nl s = repeat ""%string (S (String.length s)).
Proof.
  induction s as [|c s IH]; simpl; [done|].
  inversion 1 as [|? ? -> Hs]; subst. rewrite decide_True by done. by rewrite IH.
Qed.

Lemma byte_range_chars text a b :
  list_ascii_of_string (byte_range text a b) =
  firstn (Z.to_nat (b - a)) (skipn (Z.to_nat a) (list_ascii_of_string text)).
Proof. unfold byte_range. by rewrite list_ascii_of_string_of_list_ascii. Qed.

Lemma take_sample_Forall (P : ascii -> Prop) text :
  Forall P (list_ascii_of_string text) -> Forall P (list_ascii_of_string (take_sample text)).
Proof.
  intros H. unfold take_sample. destruct (find_nl _ _ _); [|done].
  rewrite byte_range_chars. simpl. by apply Forall_take.
Qed.

(** A readable file without a non-blank line makes both pipelines raise
    [EmptyDataError] (the partitioned one once the blocksize parses to a
    positive number). *)
Lemma pipelines_empty_file p bs w text n :
  w_files w !! p = Some text -> p ∉ w_dirs w -> p ∉ w_no_read w ->
  read_lines text = [] -> parse_bytes bs = Some n -> 0 < n ->
  pandas_pipeline p w = Err EmptyDataError w /\ dask_pipeline p bs w = Err EmptyDataError w.
Proof.
  intros Hf Hd Hr Hl Hn Hpos.
  rewrite pandas_pipeline_factor, (read_file_readable p w text) by done.
  rewrite (dask_pipeline_open p bs w n text Hn) by (by apply dask_open_file).
  unfold after_read, pandas_on_text, read_csv_text. rewrite Hl. split; [done|].
  unfold dask_on_text.
  assert (Hs : Forall (fun c => c = nl) (list_ascii_of_string (take_sample text)))
    by (apply take_sample_Forall, read_lines_nil_chars, Hl).
  replace ((sample_nparts (take_sample text) <? 2)%nat &&
           (sample_size <=? Z.of_nat (String.length (take_sample text)))) with false.
  2:{ destruct (sample_size <=? _) eqn:E; [|by rewrite andb_false_r].
      apply Z.leb_le in E. unfold sample_nparts. rewrite split_on_nl_only by done.
      rewrite repeat_length. unfold sample_size in E.
      rewrite (proj2 (Nat.ltb_lt 3 _)) by lia. done. }
  unfold read_head. apply read_lines_nil_chars in Hs. by rewrite Hs.
Qed.

(** A readable file, shorter than dask's sample, whose header has no
    column "value" and whose records have no more fields than the header:
    both pipelines raise [KeyError("value")]. *)
Lemma pipelines_missing_value_column p bs w text h data n :
  w_files w !! p = Some text -> p ∉ w_dirs w -> p ∉ w_no_read w ->
  read_lines text = h :: data -> col_index "value" (split_on comma h) = None ->
  forallb (fun r => length r <=? length (split_on comma h))%nat (map (split_on comma) data) = true ->
  Z.of_nat (String.length text) < sample_size ->
  parse_bytes bs = Some n -> 0 < n ->
  pandas_pipeline p w = Err (KeyError "value") w /\ dask_pipeline p bs w = Err (KeyError "value") w.
Proof.
  intros Hf Hd Hr Hl Hv Hrec Hshort Hn Hpos.
  rewrite pandas_pipeline_factor, (read_file_readable p w text) by done.
  rewrite (dask_pipeline_open p bs w n text Hn) by (by apply dask_open_file).
  unfold after_read, pandas_on_text, read_csv_text. rewrite Hl.
  unfold parse_records. rewrite Hrec. unfold filtered_kv. rewrite Hv. split; [done|].
  unfold dask_on_text. rewrite take_sample_short by done.
  rewrite (proj2 (Z.leb_gt _ _) Hshort), andb_false_r.
  unfold read_head. rewrite Hl. unfold parse_records.
  rewrite <- firstn_map, forallb_firstn by exact Hrec. by rewrite Hv.
Qed.

(* ----------------------------------------------------------------- *)
(** ** What [main] and [generate_dataset] write *)
Lemma world_of_bind {A B} (m : M A) (k : A -> M B) w :
  world_of (bind m k w) = match m w with Ok a w1 => world_of (k a w1) | Err _ w1 => w1 end.
Proof. unfold bind. by destruct (m w). Qed.

Lemma makedirs_files d w : w_files (world_of (makedirs d w)) = w_files w.
Proof. unfold makedirs. repeat case_match; done. Qed.

Lemma write_file_other p t w q :
  q <> p -> w_files (world_of (write_file p t w)) !! q = w_files w !! q.
Proof.
  intros Hq. unfold write_file. repeat case_match; simpl; try done;
    by rewrite lookup_insert_ne.
Qed.

Lemma generate_dataset_other p n w q :
  q <> p -> w_files (world_of (generate_dataset p n w)) !! q = w_files w !! q.
Proof.
  intros Hq. unfold generate_dataset. rewrite world_of_bind.
  pose proof (makedirs_files (dirname p) w) as Hm.
  destruct (makedirs (dirname p) w) as [[] w1|e w1]; simpl in Hm; [|by rewrite Hm].
  rewrite <- Hm. destruct (n <? 0); [done|].
  unfold get, bind. by apply write_file_other.
Qed.

(** [main] changes no file other than the one at the data path, whether
    it succeeds or raises. *)
Lemma main_other_files a w q :
  q <> data_path a -> w_files (world_of (main a w)) !! q = w_files w !! q.
Proof.
  intros Hq. unfold main. rewrite world_of_bind.
  assert (Hp : w_files (world_of (provision a w)) !! q = w_files w !! q).
  { unfold provision. rewrite world_of_bind. unfold os_path_exists.
    destruct (negb _ && _); [done|]. by apply generate_dataset_other. }
  destruct (provision a w) as [[] w1|e w1]; simpl in Hp; [|done].
  by rewrite keeps_run_benchmark.
Qed.

Lemma os_path_exists_absent p w :
  w_files w !! p = None -> p ∉ w_dirs w -> os_path_exists p w = Ok false w.
Proof.
  intros Hf Hd. unfold os_path_exists. rewrite Hf.
  rewrite (bool_decide_eq_false_2 (p ∈ w_dirs w)) by done.
  rewrite (bool_decide_eq_false_2 (is_Some None)) by (intros [? ?]; discriminate).
  by rewrite orb_false_r, andb_false_r.
Qed.

Lemma provision_absent a w :
  w_files w !! data_path a = None -> data_path a ∉ w_dirs w ->
  provision a w = generate_dataset (data_path a) (rows a) w.
Proof. intros Hf Hd. unfold provision, bind. by rewrite os_path_exists_absent. Qed.

(** With a missing dataset and a negative row count, [main] raises and
    the files are as they were; the exception is [ValueError] when the
    data path's directory part names an existing directory. *)
Lemma main_negative_rows a w :
  rows a < 0 -> w_files w !! data_path a = None -> data_path a ∉ w_dirs w ->
  exists e w', main a w = Err e w' /\ w_files w' = w_files w /\
    (dirname (data_path a) <> "" -> dirname (data_path a) ∈ w_dirs w ->
     e = ValueError "negative dimensions are not allowed").
Proof.
  intros Hn Hf Hd. unfold main. unfold bind at 1. rewrite provision_absent by done.
  unfold generate_dataset, bind at 1.
  pose proof (makedirs_files (dirname (data_path a)) w) as Hm.
  destruct (makedirs (dirname (data_path a)) w) as [[] w1|e w1] eqn:Hmk; simpl in Hm.
  - rewrite (proj2 (Z.ltb_lt _ _) Hn). unfold raise.
    eexists _, _. split; [reflexivity|]. split; [done|]. done.
  - eexists _, _. split; [reflexivity|]. split; [done|].
    intros Hne Hin. unfold makedirs in Hmk.
    apply String.eqb_neq in Hne. rewrite Hne, bool_decide_eq_true_2 in Hmk by done. done.
Qed.

(** [generate_dataset] with zero rows writes the header line only. *)
Lemma generate_dataset_zero_rows p w u w' :
  generate_dataset p 0 w = Ok u w' ->
  w_files w' !! p = Some (String.append "user_id,category,value,timestamp" (String nl "")).
Proof. intros H. apply generate_dataset_ok in H as [_ ->]. reflexivity. Qed.

(** When the data path names neither a file nor a directory and [main]
    succeeds, the row count is non-negative and the file at the data path
    is the CSV text of the generated frame. *)
Lemma main_generates_missing a w u w' :
  w_files w !! data_path a = None -> data_path a ∉ w_dirs w -> main a w = Ok u w' ->
  0 <= rows a /\
  w_files w' !! data_path a = Some (to_csv (gen_frame (w_rng w) (Z.to_nat (rows a)))).
Proof.
  intros Hf Hd. unfold main. unfold bind at 1. rewrite provision_absent by done.
  destruct (generate_dataset (data_path a) (rows a) w) as [[] w1|e w1] eqn:Hg; [|done].
  intros H. apply generate_dataset_ok in Hg as [Hn Hfile].
  pose proof (keeps_run_benchmark a w1) as Hk. rewrite H in Hk. simpl in Hk.
  rewrite Hk. done.
Qed.

(* ----------------------------------------------------------------- *)
(** ** Printing and reading back the generated frame *)

Lemma chars_append a b :
  list_ascii_of_string (String.append a b) = list_ascii_of_string a ++ list_ascii_of_string b.
Proof. induction a as [|c a IH]; [done|]. change (c :: list_ascii_of_string (String.append a b) = c :: list_ascii_of_string a ++ list_ascii_of_string b). by rewrite IH. Qed.

Lemma dval_digit_char d : dval (digit_char d) = (d mod 10)%N.
Proof.
  unfold dval, digit_char.
  assert (Hlt : (d mod 10 < 10)%N) by (apply N.mod_lt; discriminate).
  rewrite N_ascii_embedding by lia. revert Hlt. generalize (d mod 10)%N. intros x _. lia.
Qed.

Lemma is_digit_digit_char d : is_digit (digit_char d) = true.
Proof.
  unfold is_digit, digit_char.
  assert (Hlt : (d mod 10 < 10)%N) by (apply N.mod_lt; discriminate).
  rewrite N_ascii_embedding by lia. revert Hlt. generalize (d mod 10)%N. intros x Hx.
  apply andb_true_iff. split; apply N.leb_le; lia.
Qed.

Lemma digits_val_app a b :
  digits_val (a ++ b) = digits_val a * 10 ^ Z.of_nat (length b) + digits_val b.
Proof.
  unfold digits_val. rewrite fold_left_app.
  assert (Hgen : forall l acc, fold_left (fun acc d => acc * 10 + Z.of_N d) l acc =
                  acc * 10 ^ Z.of_nat (length l) + fold_left (fun acc d => acc * 10 + Z.of_N d) l 0).
  { induction l as [|d l IH]; intros acc; simpl; [lia|].
    rewrite (IH (acc * 10 + Z.of_N d)), (IH (0 * 10 + Z.of_N d)). rewrite Nat2Z.inj_succ, Z.pow_succ_r by lia. lia. }
  apply Hgen.
Qed.

Lemma digits_go_spec fuel n acc :
  (1 <= fuel)%nat -> (n < 10 ^ N.of_nat fuel)%N ->
  exists D, list_ascii_of_string (digits_go fuel n acc) = D ++ list_ascii_of_string acc /\
    Forall (fun c => is_digit c = true) D /\
    digits_val (map dval D) = Z.of_N n /\ (1 <= length D)%nat /\
    ((length D = 1%nat /\ (n < 10)%N) \/ (10 ^ N.of_nat (length D - 1) <= n)%N).
Proof.
  revert n acc. induction fuel as [|f IH]; intros n acc H1 Hn.
  - lia.
  - simpl. destruct (n <? 10)%N eqn:H10.
    + apply N.ltb_lt in H10. exists [digit_char n]. split; [done|].
      split; [constructor; [apply is_digit_digit_char|constructor]|].
      split; [|split; [simpl; lia|left; split; [done|lia]]].
      unfold digits_val. simpl. rewrite dval_digit_char, N.mod_small by done. lia.
    + apply N.ltb_ge in H10.
      assert (Hf : (n / 10 < 10 ^ N.of_nat f)%N).
      { apply N.Div0.div_lt_upper_bound. rewrite Nat2N.inj_succ, N.pow_succ_r' in Hn. lia. }
      assert (Hf1 : (1 <= f)%nat).
      { destruct f; [|lia]. simpl in Hn. lia. }
      destruct (IH (n / 10)%N (String (digit_char n) acc) Hf1 Hf) as (D & Hc & Hd & Hv & Hl & Hlen).
      exists (D ++ [digit_char n]). rewrite Hc, <- app_assoc. split; [done|].
      split; [apply Forall_app; split; [done|constructor; [apply is_digit_digit_char|constructor]]|].
      rewrite map_app, digits_val_app. simpl. rewrite dval_digit_char.
      unfold digits_val at 2. simpl.
      pose proof (N.div_mod n 10 ltac:(discriminate)) as Hdm.
      split.
      { rewrite Hv. change (10 ^ Z.of_nat 1) with 10. revert Hdm.
        generalize (n / 10)%N (n mod 10)%N. intros x y Hxy. lia. }
      rewrite length_app. simpl. split; [lia|]. right.
      replace (length D + 1 - 1)%nat with (S (length D - 1)) by lia.
      rewrite Nat2N.inj_succ, N.pow_succ_r'.
      destruct Hlen as [[-> H]|H].
      * simpl. lia.
      * revert H Hdm. generalize (10 ^ N.of_nat (length D - 1))%N (n / 10)%N (n mod 10)%N.
        intros P x y. lia.
Qed.

Lemma size_nat_bound n : (n < 10 ^ N.of_nat (S (N.size_nat n)))%N.
Proof.
  assert (Hp : forall p, (N.pos p < 2 ^ N.of_nat (Pos.size_nat p))%N).
  { induction p as [p IH|p IH|]; simpl Pos.size_nat; rewrite ?Nat2N.inj_succ, ?N.pow_succ_r';
      [change (N.pos p~1) with (2 * N.pos p + 1)%N|change (N.pos p~0) with (2 * N.pos p)%N|simpl]; lia. }
  destruct n as [|p]; [simpl; lia|].
  specialize (Hp p). simpl N.size_nat.
  assert (H2 : (2 ^ N.of_nat (Pos.size_nat p) <= 10 ^ N.of_nat (Pos.size_nat p))%N)
    by (apply N.pow_le_mono_l; lia).
  rewrite Nat2N.inj_succ, N.pow_succ_r'. lia.
Qed.

Lemma str_N_spec n :
  exists D, list_ascii_of_string (str_N n) = D /\
    Forall (fun c => is_digit c = true) D /\
    digits_val (map dval D) = Z.of_N n /\ (1 <= length D)%nat /\
    forall k, (1 <= k)%nat -> (n < 10 ^ N.of_nat k)%N -> (length D <= k)%nat.
Proof.
  unfold str_N.
  destruct (digits_go_spec (S (N.size_nat n)) n "" ltac:(lia) (size_nat_bound n))
    as (D & Hc & Hd & Hv & Hl & Hlen).
  exists D. rewrite Hc, app_nil_r. split_and!; try done.
  intros k Hk Hnk. destruct Hlen as [[-> _]|H]; [done|].
  destruct (Nat.le_gt_cases (length D) k) as [|Hgt]; [done|].
  assert (Hpow : (10 ^ N.of_nat k <= 10 ^ N.of_nat (length D - 1))%N)
    by (apply N.pow_le_mono_r; lia).
  lia.
Qed.

Lemma take_digits_app D rest :
  Forall (fun c => is_digit c = true) D ->
  match rest with [] => True | c :: _ => is_digit c = false end ->
  take_digits (D ++ rest) = (map dval D, rest).
Proof.
  intros HD Hr. induction HD as [|c D Hc HD IH]; simpl.
  - destruct rest as [|c r]; simpl; [done|]. by rewrite Hr.
  - rewrite Hc, IH. done.
Qed.

Lemma take_digits_all D :
  Forall (fun c => is_digit c = true) D -> take_digits D = (map dval D, []).
Proof. intros H. rewrite <- (app_nil_r D) at 1. by apply take_digits_app. Qed.

Lemma take_sign_digit c l : is_digit c = true -> take_sign (c :: l) = (false, c :: l).
Proof.
  intros H. destruct c as [[] [] [] [] [] [] [] []]; try reflexivity; vm_compute in H; discriminate.
Qed.

Lemma digits_val_zeros z D :
  digits_val (map dval (repeat "0"%char z) ++ D) = digits_val D.
Proof.
  rewrite digits_val_app.
  assert (H0 : digits_val (map dval (repeat "0"%char z)) = 0).
  { unfold digits_val. induction z as [|z IH]; [done|]. simpl. exact IH. }
  rewrite H0. lia.
Qed.

Lemma parse_number_str_dec v :
  exists q, parse_number (str_dec v) = Some q /\ (q == Q_of_dec v)%Q.
Proof.
  destruct v as [mant e]. unfold str_dec, Q_of_dec. simpl d_mant; simpl d_exp.
  set (a := Z.abs mant).
  assert (Ha : 0 <= a) by (unfold a; lia).
  assert (Hsign : forall D rest, Forall (fun c => is_digit c = true) D -> D <> [] ->
            take_sign (list_ascii_of_string (if (mant <? 0)%Z then "-"%string else ""%string) ++ D ++ rest) =
            (mant <? 0, D ++ rest)).
  { intros D rest HD Hne. destruct (mant <? 0); [done|].
    destruct HD as [|c D' Hc _]; [done|]. simpl. by apply take_sign_digit. }
  assert (Hsgn : forall m, (if mant <? 0 then - m else m) = (if mant <? 0 then -1 else 1) * m)
    by (intros m; destruct (mant <? 0); lia).
  assert (Hmant : (if mant <? 0 then -1 else 1) * a = mant)
    by (unfold a; destruct (mant <? 0) eqn:Hm; [apply Z.ltb_lt in Hm|apply Z.ltb_ge in Hm]; lia).
  destruct (0 <=? e) eqn:He.
  - apply Z.leb_le in He.
    destruct (str_N_spec (Z.to_N (a * 10 ^ e))) as (D & HcD & HD & Hv & Hl & _).
    unfold parse_number.
    rewrite !chars_append.
    assert (HZ : str_Z (a * 10 ^ e) = str_N (Z.to_N (a * 10 ^ e))).
    { unfold str_Z. replace (a * 10 ^ e <? 0) with false; [done|].
      symmetry. apply Z.ltb_ge. apply Z.mul_nonneg_nonneg; [done|]. apply Z.pow_nonneg. lia. }
    rewrite HZ, HcD.
    change (list_ascii_of_string ".0") with ["."%char; "0"%char].
    rewrite Hsign by (done || (destruct D; simpl in Hl; [lia|done])).
    rewrite take_digits_app by done.
    assert (Hne : map dval D <> []) by (destruct D; simpl in Hl; [lia|done]).
    remember (map dval D) as ip eqn:Hip.
    destruct ip as [|d ip']; [done|].
    cbn -[digits_val Q_of_dec dval].
    eexists. split; [reflexivity|].
    rewrite app_comm_cons, Hsgn, digits_val_app, Hv.
    change (dval "0") with 0%N.
    rewrite Z2N.id by (apply Z.mul_nonneg_nonneg; [done|apply Z.pow_nonneg; lia]).
    unfold Qeq, Q_of_dec. simpl. unfold digits_val. simpl. destruct (mant <? 0); rewrite <- Hmant; change (10 ^ Z.of_nat 1) with 10; change (Z.pos (10 * 1)) with 10; ring.
  - apply Z.leb_gt in He.
    set (k := Z.to_nat (- e)).
    assert (Hk : Z.of_nat k = - e) by (unfold k; lia).
    set (p := 10 ^ (- e)).
    assert (Hp : 0 < p) by (unfold p; apply Z.pow_pos_nonneg; lia).
    destruct (str_N_spec (Z.to_N (a / p))) as (D1 & Hc1 & HD1 & Hv1 & Hl1 & _).
    destruct (str_N_spec (Z.to_N (a mod p))) as (D2 & Hc2 & HD2 & Hv2 & Hl2 & Hb2).
    assert (Hlen2 : (length D2 <= k)%nat).
    { apply Hb2; [unfold k; lia|].
      assert (Hm : 0 <= a mod p < p) by (apply Z.mod_pos_bound; lia).
      apply N2Z.inj_lt. rewrite N2Z.inj_pow, nat_N_Z, Hk, Z2N.id by lia. change (10 ^ (- e)) with p. lia. }
    assert (HZ1 : str_Z (a / p) = str_N (Z.to_N (a / p))).
    { unfold str_Z. replace (a / p <? 0) with false; [done|].
      symmetry. apply Z.ltb_ge. apply Z.div_pos; lia. }
    assert (HZ2 : str_Z (a mod p) = str_N (Z.to_N (a mod p))).
    { unfold str_Z. replace (a mod p <? 0) with false; [done|].
      symmetry. apply Z.ltb_ge. apply Z.mod_pos_bound; lia. }
    unfold parse_number.
    rewrite HZ1, HZ2. fold p. fold k.
    rewrite !chars_append, Hc1.
    change (list_ascii_of_string (String "." ?s)) with ("."%char :: list_ascii_of_string s).
    unfold pad_left. rewrite chars_append, list_ascii_of_string_of_list_ascii, Hc2.
    rewrite String_length_chars, Hc2.
    rewrite Hsign by (done || (destruct D1; simpl in Hl1; [lia|done])).
    rewrite take_digits_app by (done || reflexivity).
    rewrite take_digits_all by (apply Forall_app; split; [apply Forall_forall; intros c Hc;
      apply list_elem_of_In, repeat_spec in Hc as ->; reflexivity|done]).
    assert (Hne : map dval D1 <> []) by (destruct D1; simpl in Hl1; [lia|done]).
    remember (map dval D1) as ip eqn:Hip.
    destruct ip as [|d ip']; [done|].
    cbn -[digits_val Q_of_dec dval repeat].
    eexists. split; [reflexivity|].
    rewrite app_comm_cons, Hsgn, digits_val_app, Hv1, map_app, digits_val_zeros, Hv2.
    rewrite length_app, !length_map, repeat_length.
    replace (k - length D2 + length D2)%nat with k by lia.
    rewrite Hk, !Z2N.id by (apply Z.div_pos || apply Z.mod_pos_bound; lia).
    fold p. replace (a / p * p + a mod p) with a by (rewrite Z.mul_comm; apply Z.div_mod; lia). rewrite Hmant.
    unfold Q_of_dec. simpl.
    replace (0 <=? 0 - - e) with false by (symmetry; apply Z.leb_gt; lia).
    replace (- (0 - - e)) with (- e) by lia. fold p. reflexivity.
Qed.

Lemma forallb_chars_append f a b :
  forallb f (list_ascii_of_string (String.append a b)) =
  forallb f (list_ascii_of_string a) && forallb f (list_ascii_of_string b).
Proof. by rewrite chars_append, forallb_app. Qed.

Lemma forallb_digits D : Forall (fun c => is_digit c = true) D -> forallb num_char D = true.
Proof.
  induction 1 as [|c D Hc _ IH]; [done|]. simpl. rewrite IH. unfold num_char. by rewrite Hc.
Qed.

Lemma num_str_N n : forallb num_char (list_ascii_of_string (str_N n)) = true.
Proof. destruct (str_N_spec n) as (D & -> & HD & _). by apply forallb_digits. Qed.

Lemma num_str_Z z : forallb num_char (list_ascii_of_string (str_Z z)) = true.
Proof. unfold str_Z. destruct (z <? 0); simpl; apply num_str_N. Qed.

Lemma num_pad_left k s :
  forallb num_char (list_ascii_of_string s) = true ->
  forallb num_char (list_ascii_of_string (pad_left k s)) = true.
Proof.
  intros H. unfold pad_left. rewrite forallb_chars_append, list_ascii_of_string_of_list_ascii, H.
  generalize (k - String.length s)%nat. intros z. induction z as [|z IH]; [done|]. exact IH.
Qed.

Lemma num_str_dec v : forallb num_char (list_ascii_of_string (str_dec v)) = true.
Proof.
  unfold str_dec. destruct (0 <=? d_exp v); rewrite !forallb_chars_append;
    rewrite ?num_str_Z; destruct (d_mant v <? 0); try done.
  all: change (list_ascii_of_string (String "." ?s)) with ("."%char :: list_ascii_of_string s);
    cbn [forallb list_ascii_of_string andb]; rewrite num_pad_left by apply num_str_Z; done.
Qed.

Lemma num_join_empty xs :
  Forall (fun x => forallb num_char (list_ascii_of_string x) = true) xs ->
  forallb num_char (list_ascii_of_string (join "" xs)) = true.
Proof.
  induction 1 as [|x xs Hx Hxs IH]; [done|].
  destruct xs as [|y ys]; [done|].
  change (join "" (x :: y :: ys)) with (String.append x (String.append "" (join "" (y :: ys)))).
  by rewrite !forallb_chars_append, Hx, IH.
Qed.

Lemma num_str_timestamp s : forallb num_char (list_ascii_of_string (str_timestamp s)) = true.
Proof.
  unfold str_timestamp. destruct (civil_from_days (s / 86400)) as [[y m] d].
  apply num_join_empty.
  repeat constructor; try reflexivity; apply num_pad_left, num_str_Z.
Qed.

Lemma num_nosep d s :
  num_char d = false -> forallb num_char (list_ascii_of_string s) = true -> nosep d s = true.
Proof.
  intros Hd. unfold nosep. induction (list_ascii_of_string s) as [|c l IH]; [done|].
  simpl. intros [Hc Hl]%andb_prop. rewrite IH by done.
  case_bool_decide; [subst; congruence|done].
Qed.

Lemma split_on_nosep_app d s r :
  nosep d s = true -> split_on d (String.append s (String d r)) = s :: split_on d r.
Proof.
  unfold nosep. induction s as [|c s IH]; intros H.
  - simpl. by rewrite decide_True.
  - simpl in H. apply andb_prop in H as [Hc Hs].
    change (split_on d (String c (String.append s (String d r))) = String c s :: split_on d r).
    simpl. rewrite decide_False by (intros ->; by rewrite bool_decide_eq_true_2 in Hc).
    by rewrite IH.
Qed.

Lemma split_on_nosep d s : nosep d s = true -> split_on d s = [s].
Proof.
  unfold nosep. induction s as [|c s IH]; intros H; [done|].
  simpl in H. apply andb_prop in H as [Hc Hs]. simpl.
  rewrite decide_False by (intros ->; by rewrite bool_decide_eq_true_2 in Hc).
  by rewrite IH.
Qed.

Lemma split_csv_line r :
  nosep comma (g_category r) = true ->
  split_on comma (csv_line r) =
    [str_Z (g_user_id r); g_category r; str_dec (g_value r); str_timestamp (g_timestamp r)].
Proof.
  intros Hc. unfold csv_line.
  change (join "," [?a; ?b; ?c; ?e]) with
    (String.append a (String "," (String.append b (String "," (String.append c (String "," e)))))).
  rewrite split_on_nosep_app by (apply num_nosep; [reflexivity|apply num_str_Z]).
  rewrite split_on_nosep_app by done.
  rewrite split_on_nosep_app by (apply num_nosep; [reflexivity|apply num_str_dec]).
  rewrite split_on_nosep by (apply num_nosep; [reflexivity|apply num_str_timestamp]).
  done.
Qed.

Lemma append_assoc_str a b c :
  String.append (String.append a b) c = String.append a (String.append b c).
Proof. induction a as [|x a IH]; [done|]. exact (f_equal (String x) IH). Qed.

Lemma split_lines L :
  Forall (fun s => nosep nl s = true) L ->
  split_on nl (String.concat "" (map line L)) = L ++ [""%string].
Proof.
  induction 1 as [|x L Hx _ IH]; [done|].
  rewrite map_cons, concat_cons_append. unfold line at 1.
  rewrite append_assoc_str. change (String.append (String nl "") ?r) with (String nl r).
  by rewrite split_on_nosep_app, IH.
Qed.

Lemma filter_nonblank L :
  Forall (fun s => s <> ""%string) L ->
  List.filter (fun l => negb (String.eqb l "")) (L ++ [""%string]) = L.
Proof.
  induction 1 as [|x L Hx _ IH]; [done|]. simpl.
  destruct (String.eqb x "") eqn:E; [by apply String.eqb_eq in E|]. simpl. by rewrite IH.
Qed.

Lemma csv_line_nonempty r : csv_line r <> ""%string.
Proof.
  unfold csv_line.
  change (join "," [?a; ?b; ?c; ?e]) with
    (String.append a (String "," (String.append b (String "," (String.append c (String "," e)))))).
  destruct (str_Z (g_user_id r)); discriminate.
Qed.

Lemma nosep_append d a b : nosep d (String.append a b) = nosep d a && nosep d b.
Proof. unfold nosep. apply forallb_chars_append. Qed.

Lemma nosep_String d c s : nosep d (String c s) = negb (bool_decide (c = d)) && nosep d s.
Proof. done. Qed.

Lemma nosep_nl_csv_line r :
  nosep nl (g_category r) = true -> nosep nl (csv_line r) = true.
Proof.
  intros Hc. unfold csv_line.
  change (join "," [?a; ?b; ?c; ?e]) with
    (String.append a (String "," (String.append b (String "," (String.append c (String "," e)))))).
  repeat (rewrite nosep_append || rewrite nosep_String). rewrite Hc.
  rewrite (num_nosep nl _ eq_refl (num_str_Z _)), (num_nosep nl _ eq_refl (num_str_dec _)),
    (num_nosep nl _ eq_refl (num_str_timestamp _)).
  done.
Qed.

Lemma read_lines_to_csv frame :
  Forall (fun r => In (g_category r) labels) frame ->
  read_lines (to_csv frame) = csv_header :: map csv_line frame.
Proof.
  intros Hf. unfold read_lines, to_csv. rewrite split_lines.
  - apply filter_nonblank. constructor; [discriminate|].
    apply Forall_map. apply Forall_forall. intros r _. apply csv_line_nonempty.
  - constructor; [reflexivity|]. apply Forall_map. eapply Forall_impl; [exact Hf|].
    intros r Hr. apply nosep_nl_csv_line.
    simpl in Hr. repeat destruct Hr as [<-|Hr]; [reflexivity..|done].
Qed.



Lemma str_dec_nonempty v : str_dec v <> ""%string.
Proof.
  unfold str_dec. cbv zeta. intros H.
  destruct (0 <=? d_exp v); apply (f_equal list_ascii_of_string) in H;
    rewrite !chars_append in H; apply app_eq_nil in H as [_ H]; apply app_eq_nil in H as [_ H]; discriminate.
Qed.

Lemma is_na_num s :
  s <> ""%string -> forallb num_char (list_ascii_of_string s) = true -> is_na s = false.
Proof.
  intros Hne Hs. unfold is_na. destruct (existsb _ _) eqn:E; [|done].
  apply existsb_exists in E as (v & Hin & Heq). apply String.eqb_eq in Heq. subst s.
  simpl in Hin. repeat destruct Hin as [<-|Hin]; try done.
Qed.

Lemma value_cell_str_dec v :
  exists q, value_cell (str_dec v) = inr (Some q) /\ (q == Q_of_dec v)%Q.
Proof.
  destruct (parse_number_str_dec v) as (q & Hp & Hq). exists q. split; [|done].
  unfold value_cell. by rewrite is_na_num, Hp by (apply str_dec_nonempty || apply num_str_dec).
Qed.

Lemma labels_nosep_comma c : In c labels -> nosep comma c = true.
Proof. simpl. intros H. repeat destruct H as [<-|H]; done. Qed.

Lemma read_csv_to_csv frame :
  Forall (fun r => In (g_category r) labels) frame ->
  read_csv_text (to_csv frame) = inr (split_on comma csv_header, map row4 frame).
Proof.
  intros Hf. unfold read_csv_text. rewrite read_lines_to_csv by done.
  assert (Hr : map (split_on comma) (map csv_line frame) = map row4 frame).
  { rewrite map_map. apply map_ext_in. intros r Hr.
    apply split_csv_line, labels_nosep_comma.
    rewrite Forall_forall in Hf. apply Hf. by apply list_elem_of_In. }
  unfold parse_records. rewrite Hr.
  replace (forallb _ (map row4 frame)) with true; [done|].
  symmetry. apply forallb_forall. intros x Hx. apply in_map_iff in Hx as (r & <- & _). done.
Qed.

Lemma check_values_row4 frame : check_values 2 (map row4 frame) = None.
Proof.
  induction frame as [|r frame IH]; [done|]. simpl.
  unfold cell. simpl nth.
  destruct (value_cell_str_dec (g_value r)) as (q & -> & _). exact IH.
Qed.

Lemma positive_values_row4 frame c :
  Forall2 Qeq (positive_values 2 1 (map row4 frame) c) (gen_positive c frame).
Proof.
  induction frame as [|r frame IH]; [constructor|].
  unfold positive_values, gen_positive in *. simpl map. simpl flat_map.
  apply Forall2_app; [|exact IH].
  unfold cell. simpl nth.
  destruct (value_cell_str_dec (g_value r)) as (q & -> & Hq).
  rewrite (Qle_bool_l _ _ 0 Hq).
  destruct (Qle_bool (Q_of_dec (g_value r)) 0), (String.eqb (g_category r) c); repeat constructor; done.
Qed.

Lemma gen_positive_na frame c :
  Forall (fun r => In (g_category r) labels) frame -> is_na c = true -> gen_positive c frame = [].
Proof.
  induction 1 as [|r frame Hr _ IH]; intros Hc; [done|].
  unfold gen_positive in *. simpl. rewrite IH by done.
  destruct (String.eqb (g_category r) c) eqn:E; [|done].
  apply String.eqb_eq in E. subst c. exfalso.
  simpl in Hr. repeat destruct Hr as [Hr|Hr]; try (rewrite <- Hr in Hc; discriminate). done.
Qed.

Lemma spec_mean_Forall2 xs ys : Forall2 Qeq xs ys -> spec_mean xs = spec_mean ys.
Proof.
  intros H. unfold spec_mean. apply Qred_complete.
  assert (Hs : (foldr Qplus 0 xs == foldr Qplus 0 ys)%Q).
  { induction H as [|x y xs ys Hxy _ IH]; [reflexivity|]. simpl. rewrite Hxy, IH. reflexivity. }
  rewrite Hs, (Forall2_length _ _ _ H). reflexivity.
Qed.

Lemma generate_dataset_readable p n w u w' :
  generate_dataset p n w = Ok u w' -> (p ∉ w_dirs w') /\ w_no_read w' = w_no_read w.
Proof.
  unfold generate_dataset, bind, get, raise.
  destruct (makedirs (dirname p) w) as [[] w1|e w1] eqn:Hmk; [|done].
  assert (Hnr : w_no_read w1 = w_no_read w).
  { revert Hmk. unfold makedirs. intros H. repeat case_match; simplify_eq; done. }
  destruct (n <? 0); [done|].
  unfold write_file. intros H. repeat case_match; simplify_eq; simpl; split; try done.
  match goal with Hb : bool_decide _ = false |- _ => apply bool_decide_eq_false_1 in Hb; exact Hb end.
Qed.

(** Round trip: after [generate_dataset] succeeds, the eager pipeline on
    the written file returns, for each category, the mean of the
    generated values above 0 of that category, and nothing for the
    others. *)
Lemma generated_dataset_means p n w u w' :
  generate_dataset p n w = Ok u w' -> p ∉ w_no_read w ->
  exists m, pandas_pipeline p w' = Ok m w' /\
    forall c, m !! c = match gen_positive c (gen_frame (w_rng w) (Z.to_nat n)) with
                       | [] => None
                       | xs => Some (spec_mean xs)
                       end.
Proof.
  intros Hg Hnr.
  pose proof (generate_dataset_readable _ _ _ _ _ Hg) as [Hd Hnr'].
  apply generate_dataset_ok in Hg as [_ Hfile].
  set (frame := gen_frame (w_rng w) (Z.to_nat n)) in *.
  assert (Hlab : Forall (fun r => In (g_category r) labels) frame).
  { eapply Forall_impl; [apply gen_frame_fields|]. by intros r [? _]. }
  assert (Hrun : pandas_pipeline p w' = Ok (groupby_mean (flat_map (keep_row 2 1) (map row4 frame))) w').
  { rewrite pandas_pipeline_factor. unfold after_read, read_file.
    rewrite bool_decide_eq_false_2 by done. rewrite Hfile.
    rewrite bool_decide_eq_false_2 by (rewrite Hnr'; done).
    unfold pandas_on_text. rewrite read_csv_to_csv by done. cbv beta iota.
    unfold filtered_kv.
    change (col_index "value" (split_on comma csv_header)) with (Some 2%nat).
    cbv beta iota. rewrite check_values_row4.
    change (col_index "category" (split_on comma csv_header)) with (Some 1%nat).
    reflexivity. }
  eexists. split; [exact Hrun|].
  apply pandas_pipeline_lookup in Hrun as (text & cols & recs & vi & ci & Hf & Hcsv & Hvi & Hci & Hm).
  rewrite Hfile in Hf. injection Hf as <-.
  rewrite read_csv_to_csv in Hcsv by done. injection Hcsv as <- <-.
  change (col_index "value" (split_on comma csv_header)) with (Some 2%nat) in Hvi.
  change (col_index "category" (split_on comma csv_header)) with (Some 1%nat) in Hci.
  injection Hvi as <-. injection Hci as <-.
  intros c. rewrite Hm.
  destruct (is_na c) eqn:Hna; [by rewrite gen_positive_na|].
  pose proof (positive_values_row4 frame c) as H2.
  destruct H2 as [|x y xs ys Hxy Hrest]; [done|].
  f_equal. apply spec_mean_Forall2. by constructor.
Qed.


(** A readable file, shorter than dask's sample, that holds only a header
    with the columns "value" and "category": the eager pipeline returns the
    empty mapping; the partitioned one raises [NotImplementedError], as
    the meta's value column, without a cell, is a string column and
    [> 0] is not defined on it. *)
Lemma pipelines_header_only p bs w text h n :
  w_files w !! p = Some text -> p ∉ w_dirs w -> p ∉ w_no_read w ->
  read_lines text = [h] ->
  is_Some (col_index "value" (split_on comma h)) ->
  is_Some (col_index "category" (split_on comma h)) ->
  Z.of_nat (String.length text) < sample_size ->
  parse_bytes bs = Some n -> 0 < n ->
  pandas_pipeline p w = Ok ∅ w /\ dask_pipeline p bs w = Err NotImplementedError w.
Proof.
  intros Hf Hd Hr Hl [vi Hvi] [ci Hci] Hshort Hn Hpos.
  rewrite pandas_pipeline_factor, (read_file_readable p w text) by done.
  rewrite (dask_pipeline_open p bs w n text Hn) by (by apply dask_open_file).
  unfold after_read, pandas_on_text, read_csv_text. rewrite Hl.
  unfold parse_records. cbn [map forallb]. cbv zeta beta iota.
  unfold filtered_kv. rewrite Hvi, Hci. split; [reflexivity|].
  unfold dask_on_text. rewrite take_sample_short by done.
  rewrite (proj2 (Z.leb_gt _ _) Hshort), andb_false_r.
  unfold read_head. rewrite Hl. simpl. by rewrite Hvi.
Qed.

Lemma check_values_some vi recs e : check_values vi recs = Some e -> e = TypeError.
Proof.
  induction recs as [|r recs IH]; [done|]. simpl. unfold value_cell.
  destruct (is_na (cell r vi)); [exact IH|].
  destruct (parse_number (cell r vi)); [exact IH|]. congruence.
Qed.

Lemma check_values_in vi recs r :
  In r recs -> is_na (cell r vi) = false -> parse_number (cell r vi) = None ->
  check_values vi recs = Some TypeError.
Proof.
  intros Hin Hna Hp.
  destruct (check_values vi recs) as [e|] eqn:Hc; [by rewrite (check_values_some _ _ _ Hc)|].
  exfalso. induction recs as [|r' recs IH]; [done|].
  simpl in Hc. destruct Hin as [<-|Hin].
  - unfold value_cell in Hc. by rewrite Hna, Hp in Hc.
  - destruct (value_cell (cell r' vi)); [done|]. by apply IH.
Qed.

(** Round trip of a value: the text [to_csv] prints for a generated value
    is read back by [read_csv] as a number equal to that value. *)
Lemma to_csv_value_roundtrip v :
  exists q, value_cell (str_dec v) = inr (Some q) /\ (q == Q_of_dec v)%Q.
Proof. apply value_cell_str_dec. Qed.

(** Round trip of a frame: [read_csv] on the text of a generated frame
    gives the four column names and, for each row, its four printed
    fields. *)
Lemma read_csv_generated g n :
  read_csv_text (to_csv (gen_frame g n)) =
    inr (["user_id"; "category"; "value"; "timestamp"]%string, map row4 (gen_frame g n)).
Proof.
  rewrite read_csv_to_csv; [reflexivity|].
  eapply Forall_impl; [apply gen_frame_fields|]. by intros r [? _].
Qed.

Lemma write_file_ok_inv p t w u w' :
  write_file p t w = Ok u w' -> (p ∉ w_dirs w) /\ w' = set_files (<[p := t]> (w_files w)) w.
Proof.
  unfold write_file. intros H. repeat case_match; simplify_eq; split; try done.
  all: match goal with Hb : bool_decide (_ ∈ w_dirs _) = false |- _ =>
         apply bool_decide_eq_false_1 in Hb; exact Hb end.
Qed.

(** A file written successfully reads back as the text written, unless
    it is unreadable. *)
Lemma write_read_roundtrip p t w u w' :
  write_file p t w = Ok u w' -> p ∉ w_no_read w -> read_file p w' = Ok t w'.
Proof.
  intros H Hnr. apply write_file_ok_inv in H as [Hd ->].
  apply read_file_readable; [apply lookup_insert_eq|done|done].
Qed.

(** [os.makedirs(d, exist_ok=True)] succeeds again, changing nothing, on
    the world a successful call leaves. *)
Lemma makedirs_idempotent d w u w' :
  makedirs d w = Ok u w' -> makedirs d w' = Ok tt w'.
Proof.
  unfold makedirs. intros H.
  destruct (String.eqb d "") eqn:He; [done|].
  destruct (bool_decide (d ∈ w_dirs w)) eqn:Hin.
  - injection H as <- <-. by rewrite Hin.
  - destruct (bool_decide (is_Some _)); [done|]. destruct (bool_decide (d ∈ w_no_write w)); [done|].
    injection H as <- <-. simpl.
    by rewrite bool_decide_eq_true_2 by set_solver.
Qed.

Lemma digit_not_alpha c : is_digit c = true -> is_alpha c = false.
Proof.
  unfold is_digit, is_alpha. generalize (N_of_ascii c). intros n.
  intros [H1 H2]%andb_prop. apply N.leb_le in H1, H2.
  apply orb_false_iff. split; apply andb_false_iff; left; apply N.leb_gt; lia.
Qed.

Lemma digit_not_space c : is_digit c = true -> c <> " "%char.
Proof. intros H ->. discriminate. Qed.

Lemma filter_nonspace l :
  Forall (fun c => c <> " "%char) l ->
  List.filter (fun c => negb (bool_decide (c = " "%char))) l = l.
Proof.
  induction 1 as [|c l Hc _ IH]; [done|]. simpl.
  by rewrite bool_decide_eq_false_2, IH by done.
Qed.

Lemma take_while_app {A} (f : A -> bool) xs ys :
  Forall (fun x => f x = true) xs ->
  match ys with [] => True | y :: _ => f y = false end ->
  take_while f (xs ++ ys) = xs.
Proof.
  intros Hx Hy. induction Hx as [|x xs Hx _ IH]; simpl.
  - destruct ys as [|y ys]; [done|]. simpl. by rewrite Hy.
  - by rewrite Hx, IH.
Qed.

Lemma drop_while_app {A} (f : A -> bool) xs ys :
  Forall (fun x => f x = true) xs ->
  match ys with [] => True | y :: _ => f y = false end ->
  drop_while f (xs ++ ys) = ys.
Proof.
  intros Hx Hy. induction Hx as [|x xs Hx _ IH]; simpl.
  - destruct ys as [|y ys]; [done|]. simpl. by rewrite Hy.
  - by rewrite Hx, IH.
Qed.

Lemma to_lower_alpha c : is_alpha (to_lower c) = true -> is_alpha c = true.
Proof.
  unfold to_lower. destruct (_ && _) eqn:Hu; [|done]. intros _.
  unfold is_alpha. cbv zeta. by rewrite Hu.
Qed.

Lemma byte_unit_spec u mult :
  In (u, mult) byte_sizes ->
  Forall (fun c => is_alpha c = true) (list_ascii_of_string u) /\
  List.find (fun kv => String.eqb kv.1 u) byte_sizes = Some (u, mult).
Proof.
  simpl. intros Hin.
  repeat destruct Hin as [Hin|Hin]; try done; injection Hin as <- <-;
    (split; [repeat constructor|reflexivity]).
Qed.

Lemma parse_number_str_N k : parse_number (str_N k) = Some (inject_Z (Z.of_N k)).
Proof.
  destruct (str_N_spec k) as (D & HcD & HD & Hv & Hl & _).
  unfold parse_number. rewrite HcD.
  destruct D as [|c0 D0]; [simpl in Hl; lia|].
  assert (Hc0 : is_digit c0 = true) by (inversion HD; done).
  rewrite take_sign_digit, take_digits_all by done.
  cbv beta iota zeta. rewrite app_nil_r, Hv. simpl map.
  unfold Q_of_dec. simpl. by rewrite Z.mul_1_r.
Qed.

(** [parse_bytes] on a decimal number followed by a unit of its table
    (in any letter case) gives the number times the unit's size, when the
    product is at most 2^53 (where Python's float product is exact). *)
Lemma parse_bytes_units k u mult :
  In (string_of_list_ascii (map to_lower (list_ascii_of_string u)), mult) byte_sizes ->
  (k * mult <= 2 ^ 53)%N ->
  parse_bytes (String.append (str_N k) u) = Some (Z.of_N (k * mult)).
Proof.
  intros Hin _. destruct (byte_unit_spec _ mult Hin) as (HL & Hfind).
  rewrite list_ascii_of_string_of_list_ascii in HL.
  pose proof (parse_number_str_N k) as Hk.
  destruct (str_N_spec k) as (D & HcD & HD & Hv & Hl & _).
  unfold parse_bytes. rewrite chars_append, HcD.
  set (U := list_ascii_of_string u) in *.
  assert (HU : Forall (fun c => is_alpha c = true) U).
  { apply Forall_map in HL. eapply Forall_impl; [exact HL|]. apply to_lower_alpha. }
  rewrite filter_nonspace.
  2:{ apply Forall_app. split.
      - eapply Forall_impl; [exact HD|]. apply digit_not_space.
      - eapply Forall_impl; [exact HU|]. intros c Hc ->. discriminate. }
  destruct D as [|c0 D0]; [simpl in Hl; lia|].
  assert (Hc0 : is_digit c0 = true) by (inversion HD; done).
  replace (existsb is_digit ((c0 :: D0) ++ U)) with true by (simpl; by rewrite Hc0).
  cbv zeta. rewrite rev_app_distr.
  assert (HrU : Forall (fun c => is_alpha c = true) (rev U)) by (by apply Forall_rev).
  assert (HrD : match rev (c0 :: D0) with [] => True | y :: _ => is_alpha y = false end).
  { destruct (rev (c0 :: D0)) as [|y ys] eqn:Hr; [done|].
    apply digit_not_alpha. assert (Hy : In y (rev (c0 :: D0))) by (rewrite Hr; left; done).
    apply in_rev in Hy. rewrite Forall_forall in HD. apply HD. by apply list_elem_of_In. }
  rewrite (take_while_app _ _ _ HrU HrD), (drop_while_app _ _ _ HrU HrD), !rev_involutive.
  rewrite <- HcD, string_of_list_ascii_of_string, Hk, Hfind.
  unfold trunc. rewrite N2Z.inj_mul.
  replace (inject_Z (Z.of_N k) * inject_Z (Z.of_N mult))%Q
    with (inject_Z (Z.of_N k * Z.of_N mult)) by (unfold inject_Z, Qmult; reflexivity).
  replace (Qle_bool 0 (inject_Z (Z.of_N k * Z.of_N mult))) with true
    by (symmetry; apply Qle_bool_iff; unfold Qle; simpl; lia).
  by rewrite Qfloor_Z.
Qed.

Lemma parse_bytes_units_witness :
  In (string_of_list_ascii (map to_lower (list_ascii_of_string "MB")), (10^6)%N) byte_sizes /\
  (128 * 10^6 <= 2 ^ 53)%N /\
  parse_bytes (String.append (str_N 128) "MB") = Some (Z.of_N (128 * 10^6)).
Proof.
  assert (Hin : In (string_of_list_ascii (map to_lower (list_ascii_of_string "MB")), (10^6)%N) byte_sizes)
    by (simpl; do 3 right; left; reflexivity).
  assert (Hb : (128 * 10^6 <= 2 ^ 53)%N) by (vm_compute; discriminate).
  split_and!; [exact Hin|exact Hb|]. exact (parse_bytes_units 128 "MB" (10^6) Hin Hb).
Defined.

Lemma pandas_means_positive_witness :
  exists m, pandas_pipeline "data/large_dataset.csv" w_small = Ok m w_small /\
            m !! "A"%string = Some 2%Q /\ (0 < 2)%Q.
Proof.
  eexists. split; [vm_compute; reflexivity|]. split; [vm_compute; reflexivity|].
  eapply (pandas_means_positive "data/large_dataset.csv" w_small _ w_small "A");
    vm_compute; reflexivity.
Defined.

Lemma pipelines_empty_file_witness :
  pandas_pipeline "e.csv" w_blank = Err EmptyDataError w_blank /\
  dask_pipeline "e.csv" "128MB" w_blank = Err EmptyDataError w_blank.
Proof.
  apply (pipelines_empty_file _ _ _ blank_csv 128000000);
    try (vm_compute; reflexivity); vm_compute; set_solver.
Defined.

Lemma pipelines_missing_value_column_witness :
  pandas_pipeline "d.csv" w_novalue = Err (KeyError "value") w_novalue /\
  dask_pipeline "d.csv" "128MB" w_novalue = Err (KeyError "value") w_novalue.
Proof.
  apply (pipelines_missing_value_column _ _ _ novalue_csv "category,amount" ["A,1"]%string 128000000);
    try (vm_compute; reflexivity); vm_compute; set_solver.
Defined.

Lemma pipelines_header_only_witness :
  pandas_pipeline "h.csv" w_header = Ok ∅ w_header /\
  dask_pipeline "h.csv" "128MB" w_header = Err NotImplementedError w_header.
Proof.
  apply (pipelines_header_only _ _ _ header_csv "category,value" 128000000);
    try (vm_compute; reflexivity); try (vm_compute; set_solver); eexists; vm_compute; reflexivity.
Defined.

Lemma main_other_files_witness :
  w_files (world_of (main default_args w_empty)) !! "data/notes.txt"%string = w_files w_empty !! "data/notes.txt"%string.
Proof. apply main_other_files. discriminate. Defined.

Lemma main_negative_rows_witness :
  exists e w', main (mkArgs "data/large_dataset.csv" (-5) "128MB") w_empty = Err e w' /\
    w_files w' = w_files w_empty /\
    (dirname "data/large_dataset.csv" <> "" -> dirname "data/large_dataset.csv" ∈ w_dirs w_empty ->
     e = ValueError "negative dimensions are not allowed").
Proof.
  apply (main_negative_rows (mkArgs "data/large_dataset.csv" (-5) "128MB") w_empty);
    [reflexivity|reflexivity|vm_compute; set_solver].
Defined.

Lemma generate_dataset_zero_rows_witness :
  w_files (world_of (generate_dataset "data/x.csv" 0 w_empty)) !! "data/x.csv"%string =
    Some (String.append "user_id,category,value,timestamp" (String nl "")).
Proof.
  apply (generate_dataset_zero_rows _ w_empty tt). vm_compute. reflexivity.
Defined.

Lemma main_generates_missing_witness :
  0 <= 3 /\
  w_files (world_of (main (mkArgs "data/gen.csv" 3 "128MB") w_empty)) !! "data/gen.csv"%string =
    Some (to_csv (gen_frame rng0 3)).
Proof.
  apply (main_generates_missing (mkArgs "data/gen.csv" 3 "128MB") w_empty tt);
    [reflexivity|vm_compute; set_solver|vm_compute; reflexivity].
Defined.

Lemma generated_dataset_means_witness :
  exists m, pandas_pipeline "data/gen.csv" (world_of (generate_dataset "data/gen.csv" 8 w_empty)) =
              Ok m (world_of (generate_dataset "data/gen.csv" 8 w_empty)) /\
    forall c, m !! c = match gen_positive c (gen_frame rng0 8) with
                       | [] => None
                       | xs => Some (spec_mean xs)
                       end.
Proof.
  apply (generated_dataset_means "data/gen.csv" 8 w_empty tt); [vm_compute; reflexivity|].
  vm_compute. set_solver.
Defined.

Lemma write_read_roundtrip_witness :
  read_file "data/a.txt" (world_of (write_file "data/a.txt" "hello" w_empty)) =
    Ok "hello"%string (world_of (write_file "data/a.txt" "hello" w_empty)).
Proof.
  apply (write_read_roundtrip _ _ w_empty tt); [vm_compute; reflexivity|vm_compute; set_solver].
Defined.

Lemma makedirs_idempotent_witness :
  makedirs "out" (world_of (makedirs "out" w_empty)) = Ok tt (world_of (makedirs "out" w_empty)).
Proof. apply (makedirs_idempotent _ w_empty tt). vm_compute. reflexivity. Defined.

(* ----------------------------------------------------------------- *)
(** ** The lazy pipeline on the non-missing labels *)







































Lemma dhas_key_app k a b : dhas_key k (a ++ b) = dhas_key k a || dhas_key k b.
Proof. unfold dhas_key. by rewrite existsb_app. Qed.







Lemma label_pair_na vi ci recs c :
  is_na c = true -> dhas_key (Some c) (flat_map (label_pair vi ci) recs) = false.
Proof.
  intros Hc. induction recs as [|r recs IH]; [done|].
  simpl flat_map. rewrite dhas_key_app, IH, orb_false_r.
  unfold label_pair. destruct (value_cell (cell r vi)) as [|[q|]]; [done| |done].
  destruct (Qle_bool q 0); [done|].
  destruct (is_na (cell r ci)) eqn:Hna; simpl; [done|].
  rewrite bool_decide_eq_false_2; [done|]. intros [= Heq]. congruence.
Qed.






















